(** * Data-collection scripts of 2025-2-psat-datamining

    Shallow embedding of the five Python scripts:
    - [digital_study/geocoding_xy.py] and [kiosk/geocoding_public.py]
      ([get_coordinate] and the two geocoding [main]s);
    - [kiosk/geocoding_bank.py] ([search_place] and its [main]);
    - [kiosk/public_api.py] ([fetch_all_kiosk_data] and its [main]);
    - [kiosk/kiosk_crawler.py] ([extract_page] and its [main]).

    Remote services are oracles: a function from the request that the
    script issues to the reply it receives.  Every reply the Python code can
    turn into an exception is a constructor of the reply type, so the
    [try]/[except] blocks become pattern matches.  Side effects of a [main]
    (network requests, CSV writes, failure reports) are an event trace. *)

From Stdlib Require Import List String Ascii ZArith QArith Bool Lia Permutation.
Import ListNotations.
Open Scope string_scope.
Open Scope list_scope.

(** ** Python values *)

(** A scalar as the scripts see it: [None] (also JSON [null]), pandas' NaN,
    a string or a number. *)
Inductive pyval :=
| PNone
| PNaN
| PStr (s : string)
| PNum (q : Q).

(** Python truthiness ([if x and y], [if not address_query]).  NaN is a
    true value in Python. *)
Definition truthy (v : pyval) : bool :=
  match v with
  | PNone => false
  | PNaN => true
  | PStr s => negb (String.eqb s "")
  | PNum q => negb (Qeq_bool q 0)
  end.

(** [pd.isna]. *)
Definition isna (v : pyval) : bool :=
  match v with
  | PNone | PNaN => true
  | _ => false
  end.

(** The exceptions the [try] blocks name. *)
Inductive exc :=
| RequestException
| JSONDecodeError
| OtherException.

(** [status == lit] where [status] is [data.get('response', {}).get('status')]
    ([None] when absent). *)
Definition status_is (lit : string) (status : option string) : bool :=
  match status with
  | Some s => String.eqb s lit
  | None => false
  end.

(** ** Strings: Python's [sub in s] and [str.upper] *)

Fixpoint prefixb (p s : string) : bool :=
  match p, s with
  | EmptyString, _ => true
  | String a p', String b s' => Ascii.eqb a b && prefixb p' s'
  | String _ _, EmptyString => false
  end.

(** [sub in s], on the UTF-8 bytes of both strings (UTF-8 is
    self-synchronising, so byte containment is character containment). *)
Fixpoint contains (s sub : string) : bool :=
  prefixb sub s ||
  match s with
  | EmptyString => false
  | String _ s' => contains s' sub
  end.

Definition upper_char (c : ascii) : ascii :=
  let n := nat_of_ascii c in
  if Nat.leb 97 n && Nat.leb n 122 then ascii_of_nat (n - 32)%nat else c.

(** [str.upper] on the ASCII letters; other bytes are kept.  (Python also
    upper-cases non-ASCII letters, none of which yields the sequence
    "ATM", the only thing the scripts test on an upper-cased string.) *)
Fixpoint upper (s : string) : string :=
  match s with
  | EmptyString => EmptyString
  | String c s' => String (upper_char c) (upper s')
  end.

(** ** [get_coordinate] (geocoding_xy.py and geocoding_public.py)

    The two copies differ only in the [crs] request parameter, which the
    reply oracle absorbs. *)

Inductive address_type := ROAD | PARCEL.

Definition address_type_eqb (a b : address_type) : bool :=
  match a, b with
  | ROAD, ROAD | PARCEL, PARCEL => true
  | _, _ => false
  end.

(** [for address_type in ['ROAD', 'PARCEL']] *)
Definition address_types : list address_type := [ROAD; PARCEL].

(** The reply to one [requests.get(base_url, params=params)]: either an
    exception raised by [get], [raise_for_status], [json()] or the
    [.get] chain, or a JSON body whose status and [result.point.x] /
    [result.point.y] are read ([PNone] when absent). *)
Inductive geo_reply :=
| GeoRaised (e : exc)
| GeoJson (status : option string) (x y : pyval).

(** One iteration of the [for] loop: [return] or go on to the next type. *)
Inductive iteration := Return (x y : pyval) | Next.

Definition geo_attempt (r : geo_reply) : iteration :=
  match r with
  | GeoRaised _ => Return PNone PNone
  | GeoJson status x y =>
      if status_is "OK" status then
        if truthy x && truthy y then Return x y else Next
      else if status_is "NOT_FOUND" status then Next
      else Return PNone PNone
  end.

(** The loop; the second component lists the types requested, in order
    (one [requests.get] each). *)
Fixpoint try_types (ask : address_type -> geo_reply) (ts : list address_type)
  : (pyval * pyval) * list address_type :=
  match ts with
  | [] => ((PNone, PNone), [])
  | t :: rest =>
      match geo_attempt (ask t) with
      | Return x y => ((x, y), [t])
      | Next => let '(r, tried) := try_types ask rest in (r, t :: tried)
      end
  end.

(** [if not address_query or pd.isna(address_query)] *)
Definition skip_address (address_query : pyval) : bool :=
  negb (truthy address_query) || isna address_query.

(** [get_coordinate(key, address_query)]; [ask t] is the service's reply to
    the request for this key, this address and type [t]. *)
Definition get_coordinate (ask : address_type -> geo_reply) (address_query : pyval)
  : (pyval * pyval) * list address_type :=
  if skip_address address_query then ((PNone, PNone), [])
  else try_types ask address_types.

(** ** [search_place] (geocoding_bank.py) *)

(** A string-valued JSON field of an item: absent, [null], or a string. *)
Inductive field := Absent | Null | Str (s : string).

(** [item['point']]: absent, [null], or an object whose [x] and [y] keys
    may be missing ([None] here). *)
Inductive point_field :=
| PointAbsent
| PointNull
| PointObj (x y : option pyval).

(** One raw search item: [title], [address.road] ([Absent] also when the
    [address] object is missing) and [point]. *)
Record item := mk_item {
  item_title : field;
  item_road : field;
  item_point : point_field
}.

Definition seoul : string := "서울".
Definition exclusion_keyword : string := "ATM".

(** What the body of [for item in result['items']] does with one item. *)
Inductive item_outcome :=
| Excluded_ATM                            (** [continue] after the title test *)
| Excluded_region                         (** road address lacks '서울' *)
| Added (title : string) (x y : pyval)    (** [all_items.append((title, x, y))] *)
| Skipped_no_point                        (** [except KeyError]: warning only *)
| Raised.                                 (** any other exception *)

(** [item.get('title', 'N/A')]; [None] stands for JSON [null]. *)
Definition title_value (it : item) : option string :=
  match item_title it with
  | Absent => Some "N/A"
  | Null => None
  | Str t => Some t
  end.

(** [item.get('address', {}).get('road', '')]; [None] stands for [null]. *)
Definition road_value (it : item) : option string :=
  match item_road it with
  | Absent => Some ""
  | Null => None
  | Str r => Some r
  end.

Definition process_item (it : item) : item_outcome :=
  match title_value it with
  | None => Raised                          (* None.upper() *)
  | Some title =>
      if contains (upper title) exclusion_keyword then Excluded_ATM
      else
        match road_value it with
        | None => Raised                    (* '서울' in None *)
        | Some road_address =>
            if contains road_address seoul then
              match item_point it with
              | PointObj (Some x) (Some y) => Added title x y
              | PointObj _ _ | PointAbsent => Skipped_no_point
              | PointNull => Raised         (* None['x']: TypeError *)
              end
            else Excluded_region
        end
  end.

(** The three per-page counters of the logging line. *)
Record counters := mk_counters {
  count_added : nat;
  count_filtered_seoul : nat;
  count_filtered_atm : nat
}.

Definition counters0 : counters := mk_counters 0 0 0.

(** The item loop of one page.  [all_items] is the shared accumulator: an
    exception leaves the items appended before it in place.  The boolean
    says whether an exception escaped the loop. *)
Fixpoint process_items (its : list item) (all_items : list (string * pyval * pyval))
    (c : counters) : list (string * pyval * pyval) * counters * bool :=
  match its with
  | [] => (all_items, c, false)
  | it :: rest =>
      match process_item it with
      | Excluded_ATM =>
          process_items rest all_items
            (mk_counters (count_added c) (count_filtered_seoul c) (S (count_filtered_atm c)))
      | Excluded_region =>
          process_items rest all_items
            (mk_counters (count_added c) (S (count_filtered_seoul c)) (count_filtered_atm c))
      | Added t x y =>
          process_items rest (all_items ++ [(t, x, y)])
            (mk_counters (S (count_added c)) (count_filtered_seoul c) (count_filtered_atm c))
      | Skipped_no_point => process_items rest all_items c
      | Raised => (all_items, c, true)
      end
  end.

(** The reply to the request for one page: an exception (network, HTTP
    status, JSON decoding, or [int(...)] of a non-numeric total), or a JSON
    body with its status, [response.page.total] and
    [response.record.total] ([None] when absent) and
    [response.result.items] ([None] when [result] is missing, empty or has
    no [items]). *)
Inductive page_reply :=
| PageRaised (e : exc)
| PageJson (status : option string) (page_total record_total : option Z)
           (items : option (list item)).

Definition page_total_of (r : page_reply) : Z :=
  match r with
  | PageJson _ (Some n) _ _ => n
  | _ => 1
  end.

(** [while current_page <= total_pages:], with fuel.  Returns [None] when
    the fuel runs out, otherwise the accumulated items and the list of pages
    requested, in order. *)
Fixpoint search_loop (fuel : nat) (ask : Z -> page_reply)
    (current_page total_pages : Z) (all_items : list (string * pyval * pyval))
    (requested : list Z) : option (list (string * pyval * pyval) * list Z) :=
  match fuel with
  | O => None
  | S fuel' =>
      if current_page <=? total_pages then
        let requested' := requested ++ [current_page] in
        match ask current_page with
        | PageRaised _ => Some (all_items, requested')          (* except: break *)
        | PageJson status pt rt items =>
            if negb (status_is "OK" status) then
              Some (all_items, requested')                      (* NOT_FOUND / error: break *)
            else
              let total_pages' :=
                if current_page =? 1 then match pt with Some n => n | None => 1 end
                else total_pages in
              let zero_results :=
                (current_page =? 1) && (match rt with Some n => n | None => 0 end =? 0) in
              if zero_results then Some (all_items, requested') (* total_results == 0: break *)
              else
                match items with
                | None =>
                    search_loop fuel' ask (current_page + 1) total_pages' all_items requested'
                | Some its =>
                    match process_items its all_items counters0 with
                    | (all_items', _, true) => Some (all_items', requested')
                    | (all_items', _, false) =>
                        search_loop fuel' ask (current_page + 1) total_pages' all_items' requested'
                    end
                end
        end
      else Some (all_items, requested)
  end%Z.

(** [search_place(key, query)]; [ask p] is the reply for page [p] of this
    key and query.  The loop visits at most [max 1 N] pages, [N] being the
    first page's total, so [N + 2] rounds of fuel always suffice (lemma
    [search_place_total] below). *)
Definition search_place (ask : Z -> page_reply)
    : option (list (string * pyval * pyval) * list Z) :=
  search_loop (Z.to_nat (page_total_of (ask 1%Z)) + 2) ask 1 1 [] [].

(** ** [fetch_all_kiosk_data] (public_api.py) *)

(** One element of the [row] array: a JSON object, as an association list. *)
Definition row := list (string * pyval).

(** The reply to the request for rows [start_index .. start_index + 999]:
    an exception, a body without the [TbKioskInfo] key (a [RESULT] object
    such as [INFO-200], or anything else), or the [TbKioskInfo] object with
    its [row] array ([[]] when absent). *)
Inductive api_reply :=
| ApiRaised (e : exc)
| ApiNoService (result_code : option string)
| ApiService (rows : list row).

Definition page_size : Z := 1000.

(** [while True:], with fuel; [None] when the fuel runs out.  Returns the
    rows and the start indices requested, in order. *)
Fixpoint fetch_loop (fuel : nat) (ask : Z -> api_reply) (start_index : Z)
    (all_data_rows : list row) (requested : list Z) : option (list row * list Z) :=
  match fuel with
  | O => None
  | S fuel' =>
      let requested' := requested ++ [start_index] in
      match ask start_index with
      | ApiRaised _ => Some (all_data_rows, requested')      (* except: break *)
      | ApiNoService _ => Some (all_data_rows, requested')   (* RESULT / unknown: break *)
      | ApiService rows =>
          match rows with
          | [] => Some (all_data_rows, requested')           (* if not rows: break *)
          | _ :: _ =>
              fetch_loop fuel' ask (start_index + page_size)
                (all_data_rows ++ rows) requested'
          end
      end
  end.

Definition fetch_all_kiosk_data (fuel : nat) (ask : Z -> api_reply)
    : option (list row * list Z) :=
  fetch_loop fuel ask 1 [] [].

(** ** [extract_page] (kiosk_crawler.py) *)

(** A page data frame: its columns (the [th] texts plus [page_index]) and
    its rows. *)
Record frame := mk_frame {
  frame_columns : list string;
  frame_rows : list (list pyval)
}.

(** The reply to [session.get(url, ...)] for one page index, after the
    session's own transport retries: an exception, or an HTTP status with
    the parsed [thead] ([th] texts) and [tbody] ([td] texts per [tr]), each
    [None] when the element is missing. *)
Inductive html_reply :=
| HtmlRaised
| HtmlPage (status_code : Z) (thead : option (list string))
           (tbody : option (list (list string))).

(** The number of cells of the longest row ([0] for no row). *)
Definition max_row_length (rows : list (list string)) : nat :=
  fold_right (fun r m => Nat.max (List.length r) m) 0%nat rows.

(** [pd.DataFrame(all_rows_data, columns=columns)]: no row gives an empty
    frame with these columns; otherwise the rows are padded with [None] to
    the longest one, whose length must be the number of columns (any
    other count raises [ValueError]). *)
Definition build_frame (columns : list string) (rows : list (list string))
    : option (list (list pyval)) :=
  match rows with
  | [] => Some []
  | _ :: _ =>
      if Nat.eqb (max_row_length rows) (List.length columns) then
        Some (map (fun r => map PStr r ++ repeat PNone (List.length columns - List.length r)) rows)
      else None
  end.

Definition extract_page (fetch : Z -> html_reply) (page_index : Z) : option frame :=
  match fetch page_index with
  | HtmlRaised => None
  | HtmlPage code thead tbody =>
      if negb (code =? 200)%Z then None                  (* RuntimeError, caught *)
      else
        match thead, tbody with
        | Some columns, Some rows =>
            match build_frame columns rows with
            | None => None                               (* ValueError, caught *)
            | Some cells =>
                (* page_df['page_index'] = page_index *)
                Some (mk_frame (columns ++ ["page_index"])
                        (map (fun r => r ++ [PNum (inject_Z page_index)]) cells))
            end
        | _, _ => None
        end
  end.

(** ** Effects of the [main]s *)

(** The console reports that [main]s print on failure. *)
Inductive report :=
| KeyUnreadable          (** "key.txt를 읽을 수 없습니다" *)
| InputUnreadable        (** input CSV cannot be read *)
| QueryFailed            (** "query 검색 실패" *)
| NothingToWrite         (** empty result, no CSV *)
| NoRequiredColumns.     (** none of the four columns present *)

Inductive event :=
| Request (service : string) (unit_id : Z)   (** one HTTP request *)
| Report (r : report)
| WriteCsv (file_name : string) (header : list string) (rows : list (list pyval)).

Definition is_request (e : event) : bool :=
  match e with Request _ _ => true | _ => false end.

Definition is_write (e : event) : bool :=
  match e with WriteCsv _ _ _ => true | _ => false end.

(** [if not all_results_list: ... else: to_csv(...)] *)
Definition write_if_nonempty (file_name : string) (header : list string)
    (rows : list (list pyval)) : list event :=
  match rows with
  | [] => [Report NothingToWrite]
  | _ :: _ => [WriteCsv file_name header rows]
  end.

(** *** [main] of geocoding_xy.py and geocoding_public.py *)

(** [row.get(name)] on a row of a table with columns [cols]: the cell of
    the first column so named, [None] when there is none. *)
Fixpoint row_get (cols : list string) (r : list pyval) (name : string) : pyval :=
  match cols, r with
  | c :: cols', v :: r' => if String.eqb c name then v else row_get cols' r' name
  | _, _ => PNone
  end.

Definition geo_service (t : address_type) : string :=
  match t with ROAD => "address/ROAD" | PARCEL => "address/PARCEL" end.

(** The requests [get_coordinate] issued for row [i]. *)
Definition geo_requests (i : nat) (tried : list address_type) : list event :=
  map (fun t => Request (geo_service t) (Z.of_nat i)) tried.

(** [for index, row in df.iterrows(): ... all_results_list.append(...)],
    with the row built by [mk_out row x y]; [ask i] answers the requests
    for row [i]. *)
Fixpoint geocode_rows (mk_out : list pyval -> pyval -> pyval -> list pyval)
    (address_column : string) (ask : nat -> address_type -> geo_reply)
    (cols : list string) (i : nat) (rows : list (list pyval))
    : list (list pyval) * list event :=
  match rows with
  | [] => ([], [])
  | r :: rest =>
      let '((x, y), tried) := get_coordinate (ask i) (row_get cols r address_column) in
      let '(out, evs) := geocode_rows mk_out address_column ask cols (S i) rest in
      (mk_out r x y :: out, geo_requests i tried ++ evs)
  end.

(** geocoding_xy.py: [original_data + [x, y]]. *)
Definition xy_out (cols : list string) (r : list pyval) (x y : pyval) : list pyval :=
  r ++ [x; y].

(** geocoding_public.py: [(mgtno, sgg_name, kiosk_name, address, x, y)]. *)
Definition public_out (cols : list string) (r : list pyval) (x y : pyval) : list pyval :=
  [row_get cols r "MGTNO"; row_get cols r "OPNSFTEAMNM"; row_get cols r "KIOSKNM";
   row_get cols r "ESBPLCADDR"; x; y].

(** The credential file ([None]: [open]/[read] raised) and the input CSV
    ([None]: [pd.read_csv] raised; otherwise its columns and rows). *)
Definition main_xy (key_file : option string)
    (input : option (list string * list (list pyval)))
    (ask : nat -> address_type -> geo_reply) : list event :=
  match key_file with
  | None => [Report KeyUnreadable]                       (* return *)
  | Some _ =>
      match input with
      | None => [Report InputUnreadable]                 (* return *)
      | Some (cols, rows) =>
          let '(out, evs) := geocode_rows (xy_out cols) "주소" ask cols 0 rows in
          evs ++ write_if_nonempty "주소목록_geocoded.csv"
                   (cols ++ ["longitude"; "latitude"]) out
      end
  end.

Definition main_geocoding_public (key_file : option string)
    (input : option (list string * list (list pyval)))
    (ask : nat -> address_type -> geo_reply) : list event :=
  match key_file with
  | None => [Report KeyUnreadable]
  | Some _ =>
      match input with
      | None => [Report InputUnreadable]
      | Some (cols, rows) =>
          let '(out, evs) := geocode_rows (public_out cols) "ESBPLCADDR" ask cols 0 rows in
          evs ++ write_if_nonempty "kiosk_locations_geocoded.csv"
                   ["MGTNO"; "OPNSFTEAMNM"; "KIOSKNM"; "ESBPLCADDR"; "longitude"; "latitude"]
                   out
      end
  end.

(** *** [main] of geocoding_bank.py *)

Definition bank_list : list string :=
  ["우리은행"; "농협은행"; "신한은행"; "하나은행"; "기업은행"; "국민은행"].

(** [for query in bank_list:] inside the [try].  The local [key] is
    unbound ([None]) when the credential file could not be read: this
    [main] prints the failure but does not return, so evaluating
    [search_place(key, query)] raises [UnboundLocalError], which the [except]
    around the loop catches. *)
Fixpoint bank_loop (key : option string) (ask : string -> Z -> page_reply)
    (queries : list string) (acc : list (list pyval)) : list (list pyval) * list event :=
  match queries with
  | [] => (acc, [])
  | query :: rest =>
      match key with
      | None => (acc, [Report QueryFailed])
      | Some _ =>
          match search_place (ask query) with
          | None => (acc, [])          (* unreachable: search_place_total *)
          | Some (locations, pages) =>
              let acc' := acc ++ map (fun '(t, x, y) => [PStr query; PStr t; x; y]) locations in
              let '(acc'', evs) := bank_loop key ask rest acc' in
              (acc'', map (Request (String.append "search/" query)) pages ++ evs)
          end
      end
  end.

Definition main_bank (key_file : option string) (ask : string -> Z -> page_reply)
    : list event :=
  let pre := match key_file with None => [Report KeyUnreadable] | Some _ => [] end in
  let '(acc, evs) := bank_loop key_file ask bank_list [] in
  pre ++ evs ++ write_if_nonempty "bank_location.csv"
                  ["bank"; "title"; "longitude"; "latitude"] acc.

(** *** [main] of public_api.py *)

Definition required_columns : list string :=
  ["MGTNO"; "OPNSFTEAMNM"; "KIOSKNM"; "ESBPLCADDR"].

(** [col in pd.DataFrame(rows).columns]: some row has the key. *)
Definition df_has_column (rows : list row) (c : string) : bool :=
  existsb (fun r => existsb (fun kv => String.eqb (fst kv) c) r) rows.

Fixpoint lookup_key (r : row) (c : string) : pyval :=
  match r with
  | [] => PNaN
  | (k, v) :: r' => if String.eqb k c then v else lookup_key r' c
  end.

(** [df[available_columns]], row by row (a missing key is NaN). *)
Definition project (cols : list string) (r : row) : list pyval :=
  map (lookup_key r) cols.

(** [None] when the harvest loop runs out of fuel. *)
Definition main_public_api (key_file : option string) (fuel : nat)
    (ask : Z -> api_reply) : option (list event) :=
  match key_file with
  | None => Some [Report KeyUnreadable]                   (* return *)
  | Some _ =>
      match fetch_all_kiosk_data fuel ask with
      | None => None
      | Some (kiosk_data_list, starts) =>
          let evs := map (Request "TbKioskInfo") starts in
          match kiosk_data_list with
          | [] => Some (evs ++ [Report NothingToWrite])
          | _ :: _ =>
              let available_columns :=
                filter (df_has_column kiosk_data_list) required_columns in
              match available_columns with
              | [] => Some (evs ++ [Report NoRequiredColumns])
              | _ :: _ =>
                  Some (evs ++ [WriteCsv "seoul_kiosk_list.csv" available_columns
                                  (map (project available_columns) kiosk_data_list)])
              end
          end
      end
  end.

(** *** [main] of kiosk_crawler.py (collection of the page frames) *)

Definition crawl_pages : list Z := map Z.of_nat (seq 1 973).

(** Every page of [range(1, 974)] is submitted to the pool; [order] is the
    order in which the futures complete ([as_completed]), a permutation of
    [crawl_pages].  [all_dfs] keeps the non-[None], non-empty frames. *)
Definition crawl_collect (fetch : Z -> html_reply) (order : list Z) : list frame :=
  flat_map (fun p =>
              match extract_page fetch p with
              | Some df => match frame_rows df with [] => [] | _ :: _ => [df] end
              | None => []
              end) order.

Definition crawl_requests : list event := map (Request "franchise") crawl_pages.

(** ** Predicates used in the statements *)

(** A reply that does not resolve the address: anything but an [OK] status
    with two true coordinates. *)
Definition resolves (r : geo_reply) : bool :=
  match geo_attempt r with
  | Return x y => truthy x && truthy y
  | Next => false
  end.

(** A well-formed error status: neither [OK] nor [NOT_FOUND]. *)
Definition definitive_error (r : geo_reply) : bool :=
  match r with
  | GeoJson st _ _ => negb (status_is "OK" st) && negb (status_is "NOT_FOUND" st)
  | GeoRaised _ => false
  end.

(** What one item contributes to [all_items]. *)
Definition item_contribution (it : item) : list (string * pyval * pyval) :=
  match process_item it with
  | Added t x y => [(t, x, y)]
  | _ => []
  end.

Definition is_raised (o : item_outcome) : bool :=
  match o with Raised => true | _ => false end.

(** The items of a page that the item loop gets through: those before the
    first one whose processing raises. *)
Fixpoint processed (its : list item) : list item :=
  match its with
  | [] => []
  | it :: rest => if is_raised (process_item it) then [] else it :: processed rest
  end.

Definition record_total_of (r : page_reply) : Z :=
  match r with
  | PageJson _ _ (Some n) _ => n
  | _ => 0
  end.

(** What a page (the first one when [first]) adds to [all_items]. *)
Definition page_contribution (r : page_reply) (first : bool) : list (string * pyval * pyval) :=
  match r with
  | PageRaised _ => []
  | PageJson st _ _ items =>
      if negb (status_is "OK" st) then []
      else if first && (record_total_of r =? 0)%Z then []
      else match items with
           | None => []
           | Some its => flat_map item_contribution (processed its)
           end
  end.

(** A page after which the loop goes on to the next page index. *)
Definition page_continues (r : page_reply) (first : bool) : bool :=
  match r with
  | PageRaised _ => false
  | PageJson st _ _ items =>
      status_is "OK" st && negb (first && (record_total_of r =? 0)%Z) &&
      match items with
      | None => true
      | Some its => negb (existsb (fun it => is_raised (process_item it)) its)
      end
  end.

(** A row-range reply after which [fetch_all_kiosk_data] requests the next
    range. *)
Definition api_continues (r : api_reply) : bool :=
  match r with
  | ApiService (_ :: _) => true
  | _ => false
  end.

(** The page indices [a, a+1, ..., a+n-1]. *)
Definition zrange (a : Z) (n : nat) : list Z :=
  map (fun i => (a + Z.of_nat i)%Z) (seq 0 n).

(** ** Sample inputs *)

Definition bank_item (t r : string) : item :=
  mk_item (Str t) (Str r) (PointObj (Some (PStr "127.0")) (Some (PStr "37.5"))).

(** A one-page search answer. *)
Definition one_page (its : list item) : Z -> page_reply :=
  fun _ => PageJson (Some "OK") (Some 1%Z) (Some 1%Z) (Some its).

(** A row of the open-data service. *)
Definition kiosk_row : row := [("MGTNO", PStr "1"); ("ESBPLCADDR", PStr "서울 중구")].

(** ** Per-item outcomes, row-range rows, per-bank rows *)
Definition outcome_added (o : item_outcome) : bool :=
  match o with Added _ _ _ => true | _ => false end.
Definition outcome_atm (o : item_outcome) : bool :=
  match o with Excluded_ATM => true | _ => false end.
Definition outcome_region (o : item_outcome) : bool :=
  match o with Excluded_region => true | _ => false end.
(** The number of items of [its] whose outcome satisfies [f]. *)
Definition count_outcome (f : item_outcome -> bool) (its : list item) : nat :=
  List.length (filter (fun it => f (process_item it)) its).
(** The rows a row-range reply carries ([[]] for anything but the
    [TbKioskInfo] object). *)
Definition api_rows (r : api_reply) : list row :=
  match r with ApiService rs => rs | _ => [] end.
(** The start index of the [k]-th row range. *)
Definition range_start (k : nat) : Z := (1 + page_size * Z.of_nat k)%Z.
(** The value of [search_place] ([None], running out of fuel, never happens:
    [search_place_total]). *)
Definition search_result (ask : Z -> page_reply) : list (string * pyval * pyval) * list Z :=
  match search_place ask with Some r => r | None => ([], []) end.
(** The CSV rows [(query, title, x, y)] of one bank. *)
Definition bank_rows (query : string) (locations : list (string * pyval * pyval))
    : list (list pyval) :=
  map (fun '(t, x, y) => [PStr query; PStr t; x; y]) locations.

(** A [main]'s trace ends with one final event (a report or a CSV write),
    no write comes before it, and a written table is never empty. *)
Definition single_final_write (evs : list event) : Prop :=
  exists pre fin, evs = pre ++ [fin] /\ forallb (fun e => negb (is_write e)) pre = true /\
    (forall f h t, fin = WriteCsv f h t -> t <> []).

(** * Theorems *)

(** ** [get_coordinate] *)

(** Concrete runs: the scenario rows of the spec. *)
Example get_coordinate_road_ok :
  get_coordinate (fun _ => GeoJson (Some "OK") (PStr "127.0") (PStr "37.5")) (PStr "a")
  = ((PStr "127.0", PStr "37.5"), [ROAD]).
Proof. reflexivity. Qed.

Example get_coordinate_parcel_after_not_found :
  get_coordinate (fun t => match t with
                           | ROAD => GeoJson (Some "NOT_FOUND") PNone PNone
                           | PARCEL => GeoJson (Some "OK") (PStr "1") (PStr "2")
                           end) (PStr "a")
  = ((PStr "1", PStr "2"), [ROAD; PARCEL]).
Proof. reflexivity. Qed.

Lemma geo_attempt_error r :
  definitive_error r = true -> geo_attempt r = Return PNone PNone.
Proof.
  destruct r as [e|st x y]; simpl; [discriminate|].
  destruct (status_is "OK" st), (status_is "NOT_FOUND" st); simpl; congruence.
Qed.

Lemma try_types_error_stops ask ts t :
  In t (snd (try_types ask ts)) -> definitive_error (ask t) = true ->
  fst (try_types ask ts) = (PNone, PNone) /\
  exists pre, snd (try_types ask ts) = pre ++ [t].
Proof.
  induction ts as [|t' rest IH]; simpl; [tauto|].
  intros Hin Herr.
  destruct (geo_attempt (ask t')) as [x y|] eqn:Ha.
  - simpl in Hin. destruct Hin as [<-|[]].
    rewrite (geo_attempt_error _ Herr) in Ha. injection Ha as <- <-.
    split; [reflexivity|]. exists []. reflexivity.
  - destruct (try_types ask rest) as [r tried] eqn:Hr. simpl in *.
    destruct Hin as [<-|Hin].
    + rewrite (geo_attempt_error _ Herr) in Ha. discriminate.
    + destruct (IH Hin Herr) as [Hf [pre Hpre]].
      split; [exact Hf|]. exists (t' :: pre). rewrite Hpre. reflexivity.
Qed.

Lemma try_types_cons ask t rest :
  try_types ask (t :: rest) =
  match geo_attempt (ask t) with
  | Return x y => ((x, y), [t])
  | Next => let '(r, tried) := try_types ask rest in (r, t :: tried)
  end.
Proof. reflexivity. Qed.
Lemma geo_attempt_return r x y :
  geo_attempt r = Return x y -> (x = PNone /\ y = PNone) \/ truthy x && truthy y = true.
Proof.
  destruct r as [e|st x0 y0]; simpl.
  - intros H. injection H as <- <-. auto.
  - destruct (status_is "OK" st).
    + destruct (truthy x0 && truthy y0) eqn:Hxy; [|discriminate].
      intros H. injection H as <- <-. auto.
    + destruct (status_is "NOT_FOUND" st); [discriminate|].
      intros H. injection H as <- <-. auto.
Qed.
Lemma try_types_unresolved ask ts :
  (forall t, In t ts -> resolves (ask t) = false) -> fst (try_types ask ts) = (PNone, PNone).
Proof.
  induction ts as [|t rest IH]; intros Hall; [reflexivity|].
  rewrite try_types_cons.
  pose proof (Hall t (or_introl eq_refl)) as Ht. unfold resolves in Ht.
  destruct (geo_attempt (ask t)) as [x y|] eqn:Ha.
  - destruct (geo_attempt_return _ _ _ Ha) as [[-> ->]|H]; [reflexivity|congruence].
  - destruct (try_types ask rest) as [r tried] eqn:Hr. simpl.
    apply IH. intros t' Hin. apply Hall. right. exact Hin.
Qed.
Lemma status_ok_not_found st : status_is "OK" st = true -> status_is "NOT_FOUND" st = false.
Proof. destruct st as [s|]; simpl; [|discriminate]. intros H. apply String.eqb_eq in H. subst. reflexivity. Qed.
Lemma try_types_parcel ask : snd (try_types ask [PARCEL]) = [PARCEL].
Proof. simpl. destruct (geo_attempt (ask PARCEL)); reflexivity. Qed.

(** C1 (amended).  A non-blank query is first tried as [ROAD]; exactly one
    [PARCEL] attempt follows if and only if the [ROAD] reply is [NOT_FOUND]
    or [OK] without two true coordinates; no other attempt is ever made,
    and a query resolved by neither classification gets [(None, None)]. *)
Theorem get_coordinate_fallback (ask : address_type -> geo_reply) (a : pyval) :
  skip_address a = false ->
  let '(r, tried) := get_coordinate ask a in
  (tried = [ROAD] \/ tried = [ROAD; PARCEL]) /\
  (tried = [ROAD; PARCEL] <->
     exists st x y, ask ROAD = GeoJson st x y /\
       (status_is "NOT_FOUND" st = true \/
        (status_is "OK" st = true /\ truthy x && truthy y = false))) /\
  (resolves (ask ROAD) = false -> resolves (ask PARCEL) = false -> r = (PNone, PNone)).
Proof.
  intros Hs. unfold get_coordinate. rewrite Hs. unfold address_types.
  destruct (try_types ask [ROAD; PARCEL]) as [r tried] eqn:Ht.
  assert (Hunres : resolves (ask ROAD) = false -> resolves (ask PARCEL) = false ->
                   r = (PNone, PNone)).
  { intros H1 H2. change r with (fst (r, tried)). rewrite <- Ht.
    apply try_types_unresolved. intros t [<-|[<-|[]]]; assumption. }
  split.
  { rewrite try_types_cons in Ht. destruct (geo_attempt (ask ROAD)).
    - injection Ht as _ <-. left; reflexivity.
    - destruct (try_types ask [PARCEL]) as [r' tried'] eqn:Hp.
      pose proof (try_types_parcel ask) as Hpp. rewrite Hp in Hpp. simpl in Hpp. subst tried'.
      injection Ht as _ <-. right; reflexivity. }
  split; [|exact Hunres].
  rewrite try_types_cons in Ht; destruct (ask ROAD) as [e|st x y] eqn:HR.
  - simpl in Ht. injection Ht as _ <-. split; [discriminate|].
    intros (st & x & y & H & _). discriminate.
  - cbn [geo_attempt] in Ht.
    destruct (status_is "OK" st) eqn:Hok.
    + pose proof (status_ok_not_found _ Hok) as Hnf.
      destruct (truthy x && truthy y) eqn:Hxy.
      * injection Ht as _ <-. split; [discriminate|].
        intros (st' & x' & y' & H & Hc). injection H as <- <- <-.
        rewrite Hnf, Hxy in Hc. destruct Hc as [Hc|[_ Hc]]; discriminate.
      * destruct (try_types ask [PARCEL]) as [r' tried'] eqn:Hp.
        pose proof (try_types_parcel ask) as Hpp. rewrite Hp in Hpp. simpl in Hpp. subst tried'.
        injection Ht as _ <-. split; [|reflexivity].
        intros _. exists st, x, y. auto.
    + destruct (status_is "NOT_FOUND" st) eqn:Hnf.
      * destruct (try_types ask [PARCEL]) as [r' tried'] eqn:Hp.
        pose proof (try_types_parcel ask) as Hpp. rewrite Hp in Hpp. simpl in Hpp. subst tried'.
        injection Ht as _ <-. split; [|reflexivity].
        intros _. exists st, x, y. auto.
      * injection Ht as _ <-. split; [discriminate|].
        intros (st' & x' & y' & H & Hc). injection H as <- <- <-.
        rewrite Hnf, Hok in Hc. destruct Hc as [Hc|[Hc _]]; discriminate.
Qed.

Lemma get_coordinate_fallback_witness :
  skip_address (PStr "a") = false /\
  (let '(r, tried) := get_coordinate (fun _ => GeoJson (Some "NOT_FOUND") PNone PNone) (PStr "a") in
   (tried = [ROAD] \/ tried = [ROAD; PARCEL]) /\
   (tried = [ROAD; PARCEL] <->
      exists st x y, GeoJson (Some "NOT_FOUND") PNone PNone = GeoJson st x y /\
        (status_is "NOT_FOUND" st = true \/
         (status_is "OK" st = true /\ truthy x && truthy y = false))) /\
   (resolves (GeoJson (Some "NOT_FOUND") PNone PNone) = false ->
    resolves (GeoJson (Some "NOT_FOUND") PNone PNone) = false -> r = (PNone, PNone))).
Proof.
  split; [reflexivity|].
  exact (get_coordinate_fallback (fun _ => GeoJson (Some "NOT_FOUND") PNone PNone)
           (PStr "a") eq_refl).
Defined.

(** C1 as stated fails: an [OK] reply to [ROAD] whose point has no
    coordinates is followed by a [PARCEL] attempt although the status was
    not "not found". *)
Lemma get_coordinate_fallback_on_ok_counterexample :
  let ask := fun t => match t with
                      | ROAD => GeoJson (Some "OK") PNone PNone
                      | PARCEL => GeoJson (Some "OK") (PStr "1") (PStr "2")
                      end in
  snd (get_coordinate ask (PStr "a")) = [ROAD; PARCEL] /\
  status_is "NOT_FOUND" (Some "OK") = false.
Proof. split; reflexivity. Qed.

(** C8.  If a classification that was attempted got a definitive error
    status (neither [OK] nor [NOT_FOUND]), [get_coordinate] returns
    [(None, None)] and that classification was the last one requested. *)
Theorem get_coordinate_error_stops (ask : address_type -> geo_reply) (a : pyval)
    (t : address_type) :
  In t (snd (get_coordinate ask a)) -> definitive_error (ask t) = true ->
  fst (get_coordinate ask a) = (PNone, PNone) /\
  exists pre, snd (get_coordinate ask a) = pre ++ [t].
Proof.
  unfold get_coordinate. destruct (skip_address a).
  - simpl. tauto.
  - apply try_types_error_stops.
Qed.

Lemma get_coordinate_error_stops_witness :
  let ask := fun _ : address_type => GeoJson (Some "ERROR") PNone PNone in
  In ROAD (snd (get_coordinate ask (PStr "a"))) /\
  definitive_error (ask ROAD) = true /\
  fst (get_coordinate ask (PStr "a")) = (PNone, PNone) /\
  exists pre, snd (get_coordinate ask (PStr "a")) = pre ++ [ROAD].
Proof.
  intros ask.
  assert (Hin : In ROAD (snd (get_coordinate ask (PStr "a")))) by (simpl; auto).
  assert (Herr : definitive_error (ask ROAD) = true) by reflexivity.
  split; [exact Hin|]. split; [exact Herr|].
  exact (get_coordinate_error_stops ask (PStr "a") ROAD Hin Herr).
Defined.

(** C10.  An empty, [None] or NaN address gives [(None, None)] with no
    request at all. *)
Theorem get_coordinate_blank (ask : address_type -> geo_reply) (a : pyval) :
  a = PNone \/ a = PNaN \/ a = PStr "" ->
  get_coordinate ask a = ((PNone, PNone), []).
Proof. intros [->|[->| ->]]; reflexivity. Qed.

Lemma get_coordinate_blank_witness :
  (PNaN = PNone \/ PNaN = PNaN \/ PNaN = PStr "") /\
  get_coordinate (fun _ => GeoJson (Some "OK") (PStr "1") (PStr "2")) PNaN = ((PNone, PNone), []).
Proof.
  assert (H : PNaN = PNone \/ PNaN = PNaN \/ PNaN = PStr "") by (right; left; reflexivity).
  split; [exact H|].
  exact (get_coordinate_blank (fun _ => GeoJson (Some "OK") (PStr "1") (PStr "2")) PNaN H).
Defined.

(** ** [search_place] *)

Lemma process_items_spec its acc c :
  let '(acc', _, b) := process_items its acc c in
  acc' = acc ++ flat_map item_contribution (processed its) /\
  b = existsb (fun it => is_raised (process_item it)) its.
Proof.
  revert acc c. induction its as [|it rest IH]; intros acc c; simpl.
  - rewrite app_nil_r. auto.
  - destruct (process_item it) as [| |title x y| |] eqn:Hit; simpl; rewrite ?Hit;
      try (match goal with
           | |- context [process_items rest ?a ?c] =>
               specialize (IH a c); destruct (process_items rest a c) as [[a' c'] b']
           end; destruct IH as [-> ->]; split; [|reflexivity];
           unfold item_contribution; rewrite Hit; simpl; rewrite <- ?app_assoc; reflexivity).
    split; [rewrite app_nil_r|]; reflexivity.
Qed.

Lemma in_removelast_cons {A} (a p : A) l :
  In p (removelast (a :: l)) -> p = a \/ In p (removelast l).
Proof. destruct l as [|b l]; simpl; [tauto|]. intros [H|H]; auto. Qed.

Lemma search_loop_spec ask fuel k T acc req out req' :
  search_loop fuel ask k T acc req = Some (out, req') ->
  exists ps, req' = req ++ ps /\
    out = acc ++ flat_map (fun p => page_contribution (ask p) (p =? 1)%Z) ps /\
    (forall p, In p (removelast ps) -> page_continues (ask p) (p =? 1)%Z = true).
Proof.
  revert k T acc req. induction fuel as [|fuel IH]; intros k T acc req H; simpl in H;
    [discriminate|].
  destruct (k <=? T)%Z.
  2:{ injection H as <- <-. exists []. rewrite !app_nil_r. simpl. auto. }
  assert (Hone : forall o, o = acc ++ page_contribution (ask k) (k =? 1)%Z ->
            Some (o, req ++ [k]) = Some (out, req') ->
            exists ps, req' = req ++ ps /\
              out = acc ++ flat_map (fun p => page_contribution (ask p) (p =? 1)%Z) ps /\
              (forall p, In p (removelast ps) -> page_continues (ask p) (p =? 1)%Z = true)).
  { intros o Ho Heq. injection Heq as <- <-. exists [k]. simpl. rewrite app_nil_r.
    split; [reflexivity|]. split; [exact Ho|]. intros p []. }
  assert (Hstep : forall acc', page_continues (ask k) (k =? 1)%Z = true ->
            acc' = acc ++ page_contribution (ask k) (k =? 1)%Z ->
            forall T', search_loop fuel ask (k + 1) T' acc' (req ++ [k]) = Some (out, req') ->
            exists ps, req' = req ++ ps /\
              out = acc ++ flat_map (fun p => page_contribution (ask p) (p =? 1)%Z) ps /\
              (forall p, In p (removelast ps) -> page_continues (ask p) (p =? 1)%Z = true)).
  { intros acc' Hc Ha T' Hl. destruct (IH _ _ _ _ Hl) as (ps & -> & -> & Hps).
    exists (k :: ps). rewrite <- app_assoc. split; [reflexivity|]. split.
    - rewrite Ha, <- app_assoc. reflexivity.
    - intros p Hp. destruct (in_removelast_cons _ _ _ Hp) as [->|Hp']; auto. }
  destruct (ask k) as [e|st pt rt items] eqn:Hk.
  - apply (Hone acc); [rewrite app_nil_r; reflexivity|exact H].
  - unfold page_contribution in Hone, Hstep; unfold page_continues in Hstep.
    simpl record_total_of in Hone, Hstep.
    destruct (status_is "OK" st); simpl in H, Hone, Hstep.
    2:{ apply (Hone acc); [rewrite app_nil_r; reflexivity|exact H]. }
    destruct ((k =? 1)%Z && (match rt with Some n => n | None => 0 end =? 0)%Z); simpl in H, Hone, Hstep.
    { apply (Hone acc); [rewrite app_nil_r; reflexivity|exact H]. }
    destruct items as [its|].
    2:{ eapply Hstep; [reflexivity| rewrite app_nil_r; reflexivity | exact H]. }
    pose proof (process_items_spec its acc counters0) as Hp.
    destruct (process_items its acc counters0) as [[a' c'] b]. destruct Hp as [-> ->].
    destruct (existsb (fun it => is_raised (process_item it)) its); simpl in H, Hstep.
    + apply (Hone _ eq_refl H).
    + eapply Hstep; [reflexivity|reflexivity|exact H].
Qed.

Lemma search_loop_enough_fuel ask fuel k T acc req :
  (2 <= k)%Z -> (Z.to_nat (T - k + 1) < fuel)%nat ->
  search_loop fuel ask k T acc req <> None.
Proof.
  revert k acc req. induction fuel as [|fuel IH]; intros k acc req Hk Hf; [lia|].
  simpl. destruct (k <=? T)%Z eqn:HkT; [|discriminate].
  apply Z.leb_le in HkT.
  assert (Hrec : forall acc' req', search_loop fuel ask (k + 1) T acc' req' <> None)
    by (intros; apply IH; lia).
  destruct (ask k) as [e|st pt rt items]; [discriminate|].
  destruct (negb (status_is "OK" st)); [discriminate|].
  replace (k =? 1)%Z with false by (symmetry; apply Z.eqb_neq; lia). simpl.
  destruct items as [its|]; [|apply Hrec].
  destruct (process_items its acc counters0) as [[a' c'] []]; [discriminate|apply Hrec].
Qed.

(** [search_place] always ends within its fuel. *)
Lemma search_place_total ask : search_place ask <> None.
Proof.
  unfold search_place.
  replace (Z.to_nat (page_total_of (ask 1%Z)) + 2)%nat
    with (S (S (Z.to_nat (page_total_of (ask 1%Z))))) by lia.
  remember (S (Z.to_nat (page_total_of (ask 1%Z)))) as f eqn:Hf.
  simpl.
  destruct (ask 1%Z) as [e|st pt rt items] eqn:H1; [discriminate|].
  destruct (negb (status_is "OK" st)); [discriminate|].
  simpl. destruct (match rt with Some n => n | None => 0%Z end =? 0)%Z; [discriminate|].
  assert (Hrec : forall acc' req',
    search_loop f ask 2 (match pt with Some n => n | None => 1 end) acc' req' <> None).
  { intros. apply search_loop_enough_fuel; [lia|]. subst f. destruct pt; simpl; lia. }
  destruct items as [its|]; [|apply Hrec].
  destruct (process_items its [] counters0) as [[a' c'] []]; [discriminate|apply Hrec].
Qed.

Lemma zrange_S a n : zrange a (S n) = a :: zrange (a + 1) n.
Proof.
  unfold zrange. simpl. rewrite Z.add_0_r. f_equal.
  rewrite <- seq_shift, map_map. apply map_ext. intros i. lia.
Qed.

Lemma search_loop_clean ask n : forall fuel k T acc req,
  (2 <= k)%Z -> Z.to_nat (T - k + 1) = n -> (n < fuel)%nat ->
  (forall p, (k <= p <= T)%Z -> page_continues (ask p) false = true) ->
  exists out, search_loop fuel ask k T acc req = Some (out, req ++ zrange k n).
Proof.
  induction n as [|n IH]; intros fuel k T acc req Hk Hn Hf Hc;
    (destruct fuel as [|fuel]; [lia|]); simpl.
  - replace (k <=? T)%Z with false by (symmetry; apply Z.leb_gt; lia).
    exists acc. rewrite app_nil_r. reflexivity.
  - replace (k <=? T)%Z with true by (symmetry; apply Z.leb_le; lia).
    pose proof (Hc k ltac:(lia)) as Hck.
    replace (k =? 1)%Z with false by (symmetry; apply Z.eqb_neq; lia).
    assert (Hrec : forall acc', exists out,
      search_loop fuel ask (k + 1) T acc' (req ++ [k]) = Some (out, req ++ zrange k (S n))).
    { intros acc'. rewrite zrange_S.
      replace (req ++ k :: zrange (k + 1) n) with ((req ++ [k]) ++ zrange (k + 1) n)
        by (rewrite <- app_assoc; reflexivity).
      apply IH; [lia|lia|lia|]. intros p Hp. apply Hc. lia. }
    destruct (ask k) as [e|st pt rt items]; simpl in Hck; [discriminate|].
    destruct (status_is "OK" st); [|discriminate]. simpl.
    destruct items as [its|]; [|apply Hrec].
    pose proof (process_items_spec its acc counters0) as Hp.
    destruct (process_items its acc counters0) as [[a' c'] b]. destruct Hp as [_ ->].
    apply negb_true_iff in Hck. rewrite Hck. apply Hrec.
Qed.

(** The scenario of the spec: two pages of 30 items, 5 titled "ATM" on
    page 1 and 10 outside Seoul on page 2: 45 items are collected. *)
Example search_place_scenario :
  let page1 := repeat (bank_item "우리은행 ATM" "서울 중구") 5 ++
               repeat (bank_item "우리은행 종로점" "서울 종로구") 25 in
  let page2 := repeat (bank_item "우리은행 광명점" "경기 광명시") 10 ++
               repeat (bank_item "우리은행 강남점" "서울 강남구") 20 in
  let ask := fun p => if (p =? 1)%Z then PageJson (Some "OK") (Some 2%Z) (Some 60%Z) (Some page1)
                      else PageJson (Some "OK") (Some 2%Z) (Some 60%Z) (Some page2) in
  option_map (fun r => (List.length (fst r), snd r)) (search_place ask) = Some (45%nat, [1%Z; 2%Z]).
Proof. vm_compute. reflexivity. Qed.

Example process_item_atm_lowercase :
  process_item (mk_item (Str "농협은행 atm") Null PointNull) = Excluded_ATM.
Proof. vm_compute. reflexivity. Qed.

Lemma search_place_output ask out pages :
  search_place ask = Some (out, pages) ->
  out = flat_map (fun p => page_contribution (ask p) (p =? 1)%Z) pages.
Proof.
  unfold search_place. intros H.
  destruct (search_loop_spec _ _ _ _ _ _ _ _ H) as (ps & -> & -> & _). reflexivity.
Qed.

Lemma process_item_added it t x y :
  process_item it = Added t x y ->
  title_value it = Some t /\ contains (upper t) exclusion_keyword = false /\
  (exists r, road_value it = Some r /\ contains r seoul = true) /\
  item_point it = PointObj (Some x) (Some y).
Proof.
  unfold process_item. destruct (title_value it) as [t0|]; [|discriminate].
  destruct (contains (upper t0) exclusion_keyword) eqn:Ha; [discriminate|].
  destruct (road_value it) as [r|]; [|discriminate].
  destruct (contains r seoul) eqn:Hs; [|discriminate].
  destruct (item_point it) as [| |[x0|] [y0|]]; try discriminate.
  intros H. injection H as <- <- <-. eauto 10.
Qed.

(** C6.  An item whose title contains "ATM" in any letter case is
    discarded by the first test whatever its address and point (even a
    [null] road, which would otherwise raise), and no collected entry
    carries a title containing "ATM". *)
Theorem search_place_excludes_atm (ask : Z -> page_reply) out pages (it : item) (t : string) :
  search_place ask = Some (out, pages) ->
  title_value it = Some t -> contains (upper t) exclusion_keyword = true ->
  (forall road pt, process_item (mk_item (item_title it) road pt) = Excluded_ATM) /\
  item_contribution it = [] /\
  forall t' x y, In (t', x, y) out -> contains (upper t') exclusion_keyword = false.
Proof.
  intros Hsp Ht Hatm.
  assert (Hex : forall road pt, process_item (mk_item (item_title it) road pt) = Excluded_ATM).
  { intros road pt. unfold process_item, title_value in *. simpl. rewrite Ht, Hatm. reflexivity. }
  split; [exact Hex|]. split.
  { unfold item_contribution. destruct it as [ti ro po]. pose proof (Hex ro po) as He.
    simpl in He. rewrite He. reflexivity. }
  intros t' x y Hin. rewrite (search_place_output _ _ _ Hsp) in Hin.
  apply in_flat_map in Hin as (p & _ & Hin).
  destruct (ask p) as [e|st pt rt items]; simpl in Hin; [contradiction|].
  destruct (negb (status_is "OK" st)); [contradiction|].
  destruct ((p =? 1)%Z && _); [contradiction|].
  destruct items as [its|]; [|contradiction].
  apply in_flat_map in Hin as (it' & _ & Hin).
  unfold item_contribution in Hin.
  destruct (process_item it') eqn:Hp; try contradiction.
  destruct Hin as [Heq|[]]. injection Heq as <- <- <-.
  apply process_item_added in Hp. tauto.
Qed.

(** C2 (amended).  [search_place] returns the contributions of the pages
    it requested, in order; an item that passes the exclusion filter and
    whose processing raises no exception contributes the entry
    [(title, x, y)] exactly when its road address contains '서울' and its
    own point has the coordinates [x] and [y], and contributes nothing
    otherwise. *)
Theorem search_place_region_filter (ask : Z -> page_reply) out pages :
  search_place ask = Some (out, pages) ->
  out = flat_map (fun p => page_contribution (ask p) (p =? 1)%Z) pages /\
  forall it t, title_value it = Some t -> contains (upper t) exclusion_keyword = false ->
    is_raised (process_item it) = false ->
    (forall x y, item_contribution it = [(t, x, y)] <->
       exists r, road_value it = Some r /\ contains r seoul = true /\
                 item_point it = PointObj (Some x) (Some y)) /\
    (item_contribution it = [] \/ exists x y, item_contribution it = [(t, x, y)]).
Proof.
  intros Hsp. split; [exact (search_place_output _ _ _ Hsp)|].
  intros it t Ht Hatm Hnr. unfold item_contribution.
  destruct (process_item it) as [| |t0 x y| |] eqn:Hp; simpl in Hnr; try discriminate.
  3:{ destruct (process_item_added _ _ _ _ Hp) as (Ht0 & _ & (r & Hr & Hs) & Hpt).
      rewrite Ht in Ht0. injection Ht0 as <-.
      split; [|right; eauto]. intros x' y'. split.
      - intros He. injection He as <- <-. eauto.
      - intros (r' & _ & _ & Hpt'). rewrite Hpt in Hpt'.
        injection Hpt' as <- <-. reflexivity. }
  all: split; [|left; reflexivity]; intros x y; split; [intros H; discriminate|];
    intros (r & Hr & Hs & Hpt); unfold process_item in Hp;
    rewrite Ht, Hatm, Hr, Hs, Hpt in Hp; simpl in Hp; discriminate.
Qed.

(** C7 (amended).  When every page answers [OK] and is processed without an
    exception, [search_place] requests exactly the pages [1 .. max 1 N],
    [N] being the page total of the first reply, unless that reply has a
    zero record total, in which case only page 1 is requested. *)
Theorem search_place_page_count (ask : Z -> page_reply) :
  page_continues (ask 1%Z) false = true ->
  (forall p, (2 <= p <= page_total_of (ask 1%Z))%Z -> page_continues (ask p) false = true) ->
  exists out, search_place ask =
    Some (out, if (record_total_of (ask 1%Z) =? 0)%Z then [1%Z]
               else zrange 1 (Z.to_nat (Z.max 1 (page_total_of (ask 1%Z))))).
Proof.
  intros H1 Hrest. unfold search_place.
  replace (Z.to_nat (page_total_of (ask 1%Z)) + 2)%nat
    with (S (S (Z.to_nat (page_total_of (ask 1%Z))))) by lia.
  remember (S (Z.to_nat (page_total_of (ask 1%Z)))) as f eqn:Hf.
  simpl.
  destruct (ask 1%Z) as [e|st pt rt items] eqn:Ha1; simpl in H1; [discriminate|].
  destruct (status_is "OK" st); [|discriminate]. simpl. simpl in H1.
  simpl record_total_of. simpl page_total_of in *.
  destruct (match rt with Some n => n | None => 0%Z end =? 0)%Z.
  { eexists. reflexivity. }
  set (N := match pt with Some n => n | None => 1%Z end) in *.
  assert (Hr : forall acc, exists out,
    search_loop f ask 2 N acc [1%Z] = Some (out, zrange 1 (Z.to_nat (Z.max 1 N)))).
  { intros acc.
    replace (Z.to_nat (Z.max 1 N)) with (S (Z.to_nat (N - 2 + 1))) by lia.
    rewrite zrange_S. change (1 :: zrange (1 + 1) (Z.to_nat (N - 2 + 1)))%Z
      with ([1%Z] ++ zrange 2 (Z.to_nat (N - 2 + 1))).
    apply search_loop_clean; [lia|reflexivity| |].
    - subst f N. destruct pt; simpl; lia.
    - intros p Hp. apply Hrest. lia. }
  destruct items as [its|]; [|apply Hr].
  pose proof (process_items_spec its [] counters0) as Hp.
  destruct (process_items its [] counters0) as [[a' c'] b]. destruct Hp as [_ ->].
  apply negb_true_iff in H1. rewrite H1. apply Hr.
Qed.

Lemma search_place_region_filter_witness :
  search_place (one_page [bank_item "우리은행 종로점" "서울 종로구"])
    = Some ([("우리은행 종로점", PStr "127.0", PStr "37.5")], [1%Z]) /\
  ([("우리은행 종로점", PStr "127.0", PStr "37.5")] =
     flat_map (fun p => page_contribution
                 (one_page [bank_item "우리은행 종로점" "서울 종로구"] p) (p =? 1)%Z) [1%Z] /\
   forall it t, title_value it = Some t -> contains (upper t) exclusion_keyword = false ->
    is_raised (process_item it) = false ->
    (forall x y, item_contribution it = [(t, x, y)] <->
       exists r, road_value it = Some r /\ contains r seoul = true /\
                 item_point it = PointObj (Some x) (Some y)) /\
    (item_contribution it = [] \/ exists x y, item_contribution it = [(t, x, y)])).
Proof.
  assert (H : search_place (one_page [bank_item "우리은행 종로점" "서울 종로구"])
    = Some ([("우리은행 종로점", PStr "127.0", PStr "37.5")], [1%Z])) by (vm_compute; reflexivity).
  split; [exact H|].
  exact (search_place_region_filter _ _ _ H).
Defined.

(** C2 as stated fails: a '서울' item without a point is skipped. *)
Lemma search_place_region_filter_counterexample :
  let it := mk_item (Str "우리은행 종로점") (Str "서울 종로구") PointAbsent in
  search_place (one_page [it]) = Some ([], [1%Z]) /\
  title_value it = Some "우리은행 종로점" /\
  contains (upper "우리은행 종로점") exclusion_keyword = false /\
  road_value it = Some "서울 종로구" /\ contains "서울 종로구" seoul = true.
Proof. vm_compute. repeat split. Qed.

Lemma search_place_excludes_atm_witness :
  let it := bank_item "우리은행 ATM" "서울 중구" in
  let ask := one_page [it; bank_item "우리은행 종로점" "서울 종로구"] in
  search_place ask = Some ([("우리은행 종로점", PStr "127.0", PStr "37.5")], [1%Z]) /\
  title_value it = Some "우리은행 ATM" /\
  contains (upper "우리은행 ATM") exclusion_keyword = true /\
  ((forall road pt, process_item (mk_item (item_title it) road pt) = Excluded_ATM) /\
   item_contribution it = [] /\
   forall t' x y, In (t', x, y) [("우리은행 종로점", PStr "127.0", PStr "37.5")] ->
     contains (upper t') exclusion_keyword = false).
Proof.
  intros it ask.
  assert (H1 : search_place ask = Some ([("우리은행 종로점", PStr "127.0", PStr "37.5")], [1%Z]))
    by (vm_compute; reflexivity).
  assert (H2 : title_value it = Some "우리은행 ATM") by reflexivity.
  assert (H3 : contains (upper "우리은행 ATM") exclusion_keyword = true) by (vm_compute; reflexivity).
  split; [exact H1|]. split; [exact H2|]. split; [exact H3|].
  exact (search_place_excludes_atm ask _ _ it _ H1 H2 H3).
Defined.

Lemma search_place_page_count_witness :
  let ask := fun p : Z =>
    PageJson (Some "OK") (Some 3%Z) (Some 70%Z)
      (if (p =? 2)%Z then None
       else Some [bank_item (if (p =? 1)%Z then "우리은행 종로점" else "우리은행 중구점")
                            "서울 종로구"]) in
  page_continues (ask 1%Z) false = true /\
  (forall p, (2 <= p <= page_total_of (ask 1%Z))%Z -> page_continues (ask p) false = true) /\
  search_place ask =
    Some ([("우리은행 종로점", PStr "127.0", PStr "37.5");
           ("우리은행 중구점", PStr "127.0", PStr "37.5")], [1%Z; 2%Z; 3%Z]) /\
  exists out, search_place ask =
    Some (out, if (record_total_of (ask 1%Z) =? 0)%Z then [1%Z]
               else zrange 1 (Z.to_nat (Z.max 1 (page_total_of (ask 1%Z))))).
Proof.
  intros ask.
  assert (H1 : page_continues (ask 1%Z) false = true) by (vm_compute; reflexivity).
  assert (H2 : forall p, (2 <= p <= page_total_of (ask 1%Z))%Z ->
                 page_continues (ask p) false = true).
  { intros p Hp. simpl in Hp.
    assert (Hp' : p = 2%Z \/ p = 3%Z) by lia.
    destruct Hp' as [->| ->]; vm_compute; reflexivity. }
  split; [exact H1|]. split; [exact H2|]. split; [vm_compute; reflexivity|].
  exact (search_place_page_count ask H1 H2).
Defined.

(** C7 as stated fails: a first page reporting 3 pages but a zero record
    total ends the harvest after one request, every status being [OK]. *)
Lemma search_place_page_count_counterexample :
  let ask := fun _ : Z => PageJson (Some "OK") (Some 3%Z) (Some 0%Z) (Some []) in
  page_total_of (ask 1%Z) = 3%Z /\ search_place ask = Some ([], [1%Z]).
Proof. split; reflexivity. Qed.

(** ** The geocoding [main]s *)

Lemma geocode_rows_spec mk_out col ask cols rows : forall i,
  List.length (fst (geocode_rows mk_out col ask cols i rows)) = List.length rows /\
  forall j r, nth_error rows j = Some r ->
    nth_error (fst (geocode_rows mk_out col ask cols i rows)) j =
    Some (mk_out r (fst (fst (get_coordinate (ask (i + j)%nat) (row_get cols r col))))
                   (snd (fst (get_coordinate (ask (i + j)%nat) (row_get cols r col))))).
Proof.
  induction rows as [|r0 rest IH]; intros i; simpl.
  - split; [reflexivity|]. intros [|j] r H; discriminate.
  - destruct (get_coordinate (ask i) (row_get cols r0 col)) as [[x y] tried] eqn:Hg.
    specialize (IH (S i)).
    destruct (geocode_rows mk_out col ask cols (S i) rest) as [out evs]. simpl in *.
    destruct IH as [Hlen Hnth]. split; [rewrite Hlen; reflexivity|].
    intros [|j] r H; simpl in H.
    + injection H as <-. rewrite Nat.add_0_r, Hg. reflexivity.
    + simpl. rewrite (Hnth j r H). rewrite Nat.add_succ_r. reflexivity.
Qed.

(** C5.  Both geocoding scripts build exactly one output row per input row,
    in input order: row [j] is the input row (geocoding_xy.py) or its four
    kiosk fields (geocoding_public.py) followed by what [get_coordinate]
    returned for its address, so [(None, None)] when unresolved; that list
    is what [main] writes. *)
Theorem geocoding_one_row_per_query (key : string) (cols : list string)
    (rows : list (list pyval)) (ask : nat -> address_type -> geo_reply) :
  let out_xy := fst (geocode_rows (xy_out cols) "주소" ask cols 0 rows) in
  let out_pub := fst (geocode_rows (public_out cols) "ESBPLCADDR" ask cols 0 rows) in
  List.length out_xy = List.length rows /\
  List.length out_pub = List.length rows /\
  (forall j r, nth_error rows j = Some r ->
     let '(x, y) := fst (get_coordinate (ask j) (row_get cols r "주소")) in
     let '(x', y') := fst (get_coordinate (ask j) (row_get cols r "ESBPLCADDR")) in
     nth_error out_xy j = Some (r ++ [x; y]) /\
     nth_error out_pub j =
       Some [row_get cols r "MGTNO"; row_get cols r "OPNSFTEAMNM";
             row_get cols r "KIOSKNM"; row_get cols r "ESBPLCADDR"; x'; y']) /\
  (exists evs, main_xy (Some key) (Some (cols, rows)) ask =
     evs ++ write_if_nonempty "주소목록_geocoded.csv" (cols ++ ["longitude"; "latitude"]) out_xy) /\
  (exists evs, main_geocoding_public (Some key) (Some (cols, rows)) ask =
     evs ++ write_if_nonempty "kiosk_locations_geocoded.csv"
       ["MGTNO"; "OPNSFTEAMNM"; "KIOSKNM"; "ESBPLCADDR"; "longitude"; "latitude"] out_pub).
Proof.
  intros out_xy out_pub.
  destruct (geocode_rows_spec (xy_out cols) "주소" ask cols rows 0) as [Hl1 Hn1].
  destruct (geocode_rows_spec (public_out cols) "ESBPLCADDR" ask cols rows 0) as [Hl2 Hn2].
  split; [exact Hl1|]. split; [exact Hl2|]. split.
  - intros j r H. specialize (Hn1 j r H). specialize (Hn2 j r H). simpl in Hn1, Hn2.
    destruct (fst (get_coordinate (ask j) (row_get cols r "주소"))) as [x y].
    destruct (fst (get_coordinate (ask j) (row_get cols r "ESBPLCADDR"))) as [x' y'].
    split; [exact Hn1|exact Hn2].
  - split.
    + unfold main_xy, out_xy.
      destruct (geocode_rows (xy_out cols) "주소" ask cols 0 rows) as [o e]. eauto.
    + unfold main_geocoding_public, out_pub.
      destruct (geocode_rows (public_out cols) "ESBPLCADDR" ask cols 0 rows) as [o e]. eauto.
Qed.

(** ** A missing credential file *)

(** C4.  In each script that reads a credential file, an unreadable file is
    reported and the run ends with no request issued and no CSV written.
    (geocoding_bank.py does not return after the report: the next use of
    the unbound key raises, the exception is caught, and the empty result
    is not written.) *)
Theorem missing_credential_no_effects :
  (forall input ask, In (Report KeyUnreadable) (main_xy None input ask) /\
     forallb (fun e => negb (is_request e || is_write e)) (main_xy None input ask) = true) /\
  (forall input ask, In (Report KeyUnreadable) (main_geocoding_public None input ask) /\
     forallb (fun e => negb (is_request e || is_write e))
       (main_geocoding_public None input ask) = true) /\
  (forall ask, In (Report KeyUnreadable) (main_bank None ask) /\
     forallb (fun e => negb (is_request e || is_write e)) (main_bank None ask) = true) /\
  (forall fuel ask, exists evs, main_public_api None fuel ask = Some evs /\
     In (Report KeyUnreadable) evs /\
     forallb (fun e => negb (is_request e || is_write e)) evs = true).
Proof.
  split; [intros; simpl; auto|].
  split; [intros; simpl; auto|].
  split; [intros; simpl; auto|].
  intros. eexists. split; [reflexivity|]. simpl. auto.
Qed.

(** ** [fetch_all_kiosk_data] *)

(** The start indices of the first [n] row ranges. *)
Lemma fetch_loop_pages ask pages : forall fuel start acc req,
  (forall k p, nth_error pages k = Some p ->
     ask (start + page_size * Z.of_nat k)%Z = ApiService p /\ p <> []) ->
  ask (start + page_size * Z.of_nat (List.length pages))%Z = ApiService [] ->
  (List.length pages < fuel)%nat ->
  fetch_loop fuel ask start acc req =
  Some (acc ++ List.concat pages,
        req ++ map (fun k => start + page_size * Z.of_nat k)%Z (seq 0 (S (List.length pages)))).
Proof.
  induction pages as [|p rest IH]; intros fuel start acc req Hp Hend Hf;
    (destruct fuel as [|fuel]; [simpl in Hf; lia|]); cbn [fetch_loop].
  - replace (start + page_size * Z.of_nat (List.length []))%Z with start in Hend
      by (simpl; lia).
    rewrite Hend, app_nil_r. cbn [List.length seq map]. rewrite Z.add_0_r. reflexivity.
  - destruct (Hp 0%nat p eq_refl) as [H0 Hne].
    replace (start + page_size * Z.of_nat 0)%Z with start in H0 by lia.
    rewrite H0. destruct p as [|r rs]; [contradiction|].
    rewrite IH.
    + f_equal; f_equal; [rewrite <- app_assoc; reflexivity|].
      rewrite <- app_assoc. f_equal.
      change (seq 0 (S (List.length ((r :: rs) :: rest))))
        with (0%nat :: seq 1 (S (List.length rest))).
      cbn [map app]. rewrite <- seq_shift, map_map. f_equal; [lia|].
      apply map_ext. intros k. lia.
    + intros k p' Hk. destruct (Hp (S k) p' Hk) as [Hk' Hne'].
      split; [|exact Hne']. rewrite <- Hk'. f_equal. lia.
    + rewrite <- Hend. f_equal. cbn [List.length]. lia.
    + cbn [List.length] in Hf. lia.
Qed.

(** C9 (amended).  When the row ranges answer non-empty [row] arrays
    [pages] and then an empty one, [fetch_all_kiosk_data] stops right after
    that request and returns all accumulated rows; [main] writes them,
    projected on the available required columns, when there is at least
    one row and at least one of the four required columns occurs among them,
    and writes nothing otherwise. *)
Theorem fetch_all_stops_on_empty_range (key : string) (fuel : nat)
    (ask : Z -> api_reply) (pages : list (list row)) :
  (forall k p, nth_error pages k = Some p ->
     ask (1 + page_size * Z.of_nat k)%Z = ApiService p /\ p <> []) ->
  ask (1 + page_size * Z.of_nat (List.length pages))%Z = ApiService [] ->
  (List.length pages < fuel)%nat ->
  let starts := map (fun k => 1 + page_size * Z.of_nat k)%Z (seq 0 (S (List.length pages))) in
  let available := filter (df_has_column (List.concat pages)) required_columns in
  fetch_all_kiosk_data fuel ask = Some (List.concat pages, starts) /\
  main_public_api (Some key) fuel ask =
    Some (map (Request "TbKioskInfo") starts ++
          match List.concat pages, available with
          | [], _ => [Report NothingToWrite]
          | _ :: _, [] => [Report NoRequiredColumns]
          | _ :: _, _ :: _ =>
              [WriteCsv "seoul_kiosk_list.csv" available
                 (map (project available) (List.concat pages))]
          end).
Proof.
  intros Hp Hend Hf starts available.
  assert (H : fetch_all_kiosk_data fuel ask = Some (List.concat pages, starts)).
  { unfold fetch_all_kiosk_data. rewrite (fetch_loop_pages ask pages fuel 1 [] [] Hp Hend Hf).
    reflexivity. }
  split; [exact H|].
  unfold main_public_api. rewrite H.
  destruct (List.concat pages) as [|r rs]; [reflexivity|].
  unfold available. destruct (filter _ required_columns); reflexivity.
Qed.

Lemma fetch_all_stops_on_empty_range_witness :
  let ask := fun s : Z => if (s =? 1)%Z then ApiService [kiosk_row] else ApiService [] in
  ((forall k p, nth_error [[kiosk_row]] k = Some p ->
     ask (1 + page_size * Z.of_nat k)%Z = ApiService p /\ p <> []) /\
   ask (1 + page_size * Z.of_nat 1)%Z = ApiService [] /\ (1 < 3)%nat) /\
  fetch_all_kiosk_data 3 ask = Some ([kiosk_row], [1%Z; 1001%Z]) /\
  main_public_api (Some "key") 3 ask =
    Some [Request "TbKioskInfo" 1; Request "TbKioskInfo" 1001;
          WriteCsv "seoul_kiosk_list.csv" ["MGTNO"; "ESBPLCADDR"]
            [[PStr "1"; PStr "서울 중구"]]].
Proof.
  intros ask.
  assert (Hp : forall k p, nth_error [[kiosk_row]] k = Some p ->
     ask (1 + page_size * Z.of_nat k)%Z = ApiService p /\ p <> []).
  { intros [|[|k]] p H; simpl in H; try discriminate.
    injection H as <-. split; [reflexivity|discriminate]. }
  assert (Hend : ask (1 + page_size * Z.of_nat 1)%Z = ApiService []) by reflexivity.
  assert (Hf : (1 < 3)%nat) by lia.
  split; [auto|].
  exact (fetch_all_stops_on_empty_range "key" 3 ask [[kiosk_row]] Hp Hend Hf).
Defined.

(** C9 as stated fails: one accumulated row without any of the four
    required columns is not written. *)
Lemma fetch_all_stops_on_empty_range_counterexample :
  let ask := fun s : Z => if (s =? 1)%Z then ApiService [[("OTHER", PStr "x")]]
                          else ApiService [] in
  fetch_all_kiosk_data 3 ask = Some ([[("OTHER", PStr "x")]], [1%Z; 1001%Z]) /\
  main_public_api (Some "key") 3 ask =
    Some [Request "TbKioskInfo" 1; Request "TbKioskInfo" 1001; Report NoRequiredColumns].
Proof. split; reflexivity. Qed.

(** ** Failures while fetching a page *)

Lemma in_not_removelast {A} (p : A) l :
  In p l -> ~ In p (removelast l) -> exists pre, l = pre ++ [p].
Proof.
  intros Hin Hnot. destruct l as [|a l'] using rev_ind; [contradiction|].
  rewrite removelast_last in Hnot. apply in_app_or in Hin as [H|[<-|[]]];
    [contradiction|]. eauto.
Qed.

Lemma fetch_loop_spec ask fuel : forall start acc req rows req',
  fetch_loop fuel ask start acc req = Some (rows, req') ->
  exists ss, req' = req ++ ss /\
    forall s, In s (removelast ss) -> api_continues (ask s) = true.
Proof.
  induction fuel as [|fuel IH]; intros start acc req rows req' H; simpl in H;
    [discriminate|].
  assert (Hone : Some (acc, req ++ [start]) = Some (rows, req') ->
                 exists ss, req' = req ++ ss /\
                   forall s, In s (removelast ss) -> api_continues (ask s) = true).
  { intros Heq. injection Heq as _ <-. exists [start]. split; [reflexivity|].
    intros s []. }
  destruct (ask start) as [e|c|[|r rs]] eqn:Ha; try (apply Hone; exact H).
  destruct (IH _ _ _ _ _ H) as (ss & -> & Hss).
  exists (start :: ss). rewrite <- app_assoc. split; [reflexivity|].
  intros s Hs. destruct (in_removelast_cons _ _ _ Hs) as [->|Hs'].
  - rewrite Ha. reflexivity.
  - auto.
Qed.

Lemma in_crawl_collect fetch order df :
  In df (crawl_collect fetch order) <->
  exists p, In p order /\ extract_page fetch p = Some df /\ frame_rows df <> [].
Proof.
  unfold crawl_collect. rewrite in_flat_map. split.
  - intros (p & Hp & Hin). exists p. split; [exact Hp|].
    destruct (extract_page fetch p) as [df'|]; [|contradiction].
    destruct (frame_rows df') eqn:Hr; [contradiction|].
    destruct Hin as [<-|[]]. rewrite Hr. split; [reflexivity|discriminate].
  - intros (p & Hp & He & Hr). exists p. split; [exact Hp|]. rewrite He.
    destruct (frame_rows df); [contradiction|]. left. reflexivity.
Qed.

Lemma fetch_loop_shape ask fuel : forall k acc req rows req',
  fetch_loop fuel ask (range_start k) acc req = Some (rows, req') ->
  exists n, req' = req ++ map range_start (seq k (S n)) /\
    rows = acc ++ List.concat (map (fun j => api_rows (ask (range_start j))) (seq k n)) /\
    (forall j, (k <= j < k + n)%nat -> api_continues (ask (range_start j)) = true) /\
    api_continues (ask (range_start (k + n))) = false.
Proof.
  induction fuel as [|fuel IH]; intros k acc req rows req' H; cbn [fetch_loop] in H;
    [discriminate|].
  assert (Hstop : api_continues (ask (range_start k)) = false ->
     rows = acc -> req' = req ++ [range_start k] ->
     exists n, req' = req ++ map range_start (seq k (S n)) /\
       rows = acc ++ List.concat (map (fun j => api_rows (ask (range_start j))) (seq k n)) /\
       (forall j, (k <= j < k + n)%nat -> api_continues (ask (range_start j)) = true) /\
       api_continues (ask (range_start (k + n))) = false).
  { intros Hc -> ->. exists 0%nat. simpl. rewrite app_nil_r, Nat.add_0_r.
    split; [reflexivity|]. split; [reflexivity|]. split; [intros; lia|exact Hc]. }
  destruct (ask (range_start k)) as [e|c|[|r rs]] eqn:Ha.
  - injection H as <- <-. apply Hstop; try rewrite Ha; reflexivity.
  - injection H as <- <-. apply Hstop; try rewrite Ha; reflexivity.
  - injection H as <- <-. apply Hstop; try rewrite Ha; reflexivity.
  - replace (range_start k + page_size)%Z with (range_start (S k)) in H
      by (unfold range_start, page_size; lia).
    apply IH in H as (n & -> & -> & Hc & Hl).
    exists (S n). split; [|split; [|split]].
    + rewrite <- app_assoc. reflexivity.
    + simpl. rewrite Ha. simpl. rewrite <- app_assoc. reflexivity.
    + intros j Hj. destruct (Nat.eq_dec j k) as [->|Hne]; [rewrite Ha; reflexivity|].
      apply Hc. lia.
    + replace (k + S n)%nat with (S k + n)%nat by lia. exact Hl.
Qed.

(** C3 (amended).  A failed page never raises out of a harvester, but
    only the listing crawler limits its effect to that page:
    - in [search_place], a page after which the loop does not go on (an
      exception, a non-[OK] status, an item raising) is the last page
      requested, and the result is what the earlier pages contributed,
      followed by what that page added before failing (nothing, when its
      request raised);
    - in [fetch_all_kiosk_data], a range whose request raised is the last
      range requested, and the result is the rows of all earlier ranges;
    - in the crawler, every page is requested, every page whose
      [extract_page] gives a non-empty frame has that frame collected,
      whatever happened to the other pages, and only such frames are
      collected. *)
Theorem page_failure_handling :
  (forall ask out pages p,
     search_place ask = Some (out, pages) -> In p pages ->
     page_continues (ask p) (p =? 1)%Z = false ->
     exists pre, pages = pre ++ [p] /\
       out = flat_map (fun q => page_contribution (ask q) (q =? 1)%Z) pre ++
             page_contribution (ask p) (p =? 1)%Z /\
       (forall e, ask p = PageRaised e ->
          out = flat_map (fun q => page_contribution (ask q) (q =? 1)%Z) pre)) /\
  (forall fuel ask rows starts s e,
     fetch_all_kiosk_data fuel ask = Some (rows, starts) -> In s starts ->
     ask s = ApiRaised e ->
     exists pre, starts = pre ++ [s] /\
       rows = List.concat (map (fun s' => api_rows (ask s')) pre)) /\
  (forall fetch order, Permutation crawl_pages order ->
     (forall p, In p crawl_pages -> In (Request "franchise" p) crawl_requests) /\
     (forall p df, In p crawl_pages -> extract_page fetch p = Some df ->
        frame_rows df <> [] -> In df (crawl_collect fetch order)) /\
     (forall df, In df (crawl_collect fetch order) ->
        exists p, In p crawl_pages /\ extract_page fetch p = Some df)).
Proof.
  split; [|split].
  - intros ask out pages p Hsp Hin Hc. unfold search_place in Hsp.
    destruct (search_loop_spec _ _ _ _ _ _ _ _ Hsp) as (ps & Hps & Hout & Hall).
    simpl in Hps, Hout. subst ps out.
    destruct (in_not_removelast p pages Hin) as (pre & ->).
    { intros Hr. rewrite (Hall p Hr) in Hc. discriminate. }
    exists pre. rewrite flat_map_app. simpl. rewrite app_nil_r.
    split; [reflexivity|]. split; [reflexivity|].
    intros e He. rewrite He. simpl. apply app_nil_r.
  - intros fuel ask rows starts s e Hf Hin Hs. unfold fetch_all_kiosk_data in Hf.
    change 1%Z with (range_start 0) in Hf.
    destruct (fetch_loop_shape _ _ _ _ _ _ _ Hf) as (n & -> & -> & Hc & _).
    apply in_map_iff in Hin as (j & <- & Hj). apply in_seq in Hj.
    assert (Hjn : j = n).
    { destruct (Nat.eq_dec j n) as [|Hne]; [assumption|].
      specialize (Hc j ltac:(lia)). rewrite Hs in Hc. discriminate. }
    subst j. exists (map range_start (seq 0 n)). split.
    + rewrite seq_S, map_app. reflexivity.
    + rewrite map_map. reflexivity.
  - intros fetch order Hperm. split; [|split].
    + intros p Hp. unfold crawl_requests. apply in_map. exact Hp.
    + intros p df Hp He Hr. apply in_crawl_collect. exists p.
      split; [apply (Permutation_in _ Hperm Hp)|]. auto.
    + intros df Hdf. apply in_crawl_collect in Hdf as (p & Hp & He & _).
      exists p. split; [|exact He]. apply (Permutation_in _ (Permutation_sym Hperm) Hp).
Qed.

(** C3 as stated fails: a network failure on the first row range ends
    [fetch_all_kiosk_data], so the data of the next range is never
    requested. *)
Lemma page_failure_handling_counterexample :
  let ask := fun s : Z => if (s =? 1)%Z then ApiRaised RequestException
                          else ApiService [kiosk_row] in
  fetch_all_kiosk_data 5 ask = Some ([], [1%Z]) /\
  ask 1001%Z = ApiService [kiosk_row].
Proof. split; reflexivity. Qed.

Lemma page_failure_handling_witness :
  let ask := fun p : Z => if (p =? 1)%Z
    then PageJson (Some "OK") (Some 3%Z) (Some 70%Z)
           (Some [bank_item "우리은행 종로점" "서울 종로구"])
    else PageRaised RequestException in
  let api := fun s : Z => if (s =? 1)%Z then ApiService [kiosk_row]
                          else ApiRaised RequestException in
  search_place ask =
    Some ([("우리은행 종로점", PStr "127.0", PStr "37.5")], [1%Z; 2%Z]) /\
  In 2%Z [1%Z; 2%Z] /\ page_continues (ask 2%Z) (2 =? 1)%Z = false /\
  (exists pre, [1%Z; 2%Z] = pre ++ [2%Z] /\
     [("우리은행 종로점", PStr "127.0", PStr "37.5")] =
       flat_map (fun q => page_contribution (ask q) (q =? 1)%Z) pre) /\
  fetch_all_kiosk_data 5 api = Some ([kiosk_row], [1%Z; 1001%Z]) /\
  In 1001%Z [1%Z; 1001%Z] /\ api 1001%Z = ApiRaised RequestException /\
  exists pre, [1%Z; 1001%Z] = pre ++ [1001%Z] /\
    [kiosk_row] = List.concat (map (fun s' => api_rows (api s')) pre).
Proof.
  intros ask api.
  assert (H1 : search_place ask =
    Some ([("우리은행 종로점", PStr "127.0", PStr "37.5")], [1%Z; 2%Z]))
    by (vm_compute; reflexivity).
  assert (H2 : In 2%Z [1%Z; 2%Z]) by (simpl; auto).
  assert (H3 : page_continues (ask 2%Z) (2 =? 1)%Z = false) by reflexivity.
  assert (H4 : fetch_all_kiosk_data 5 api = Some ([kiosk_row], [1%Z; 1001%Z]))
    by (vm_compute; reflexivity).
  assert (H5 : In 1001%Z [1%Z; 1001%Z]) by (simpl; auto).
  assert (H6 : api 1001%Z = ApiRaised RequestException) by reflexivity.
  split; [exact H1|]. split; [exact H2|]. split; [exact H3|]. split.
  { destruct (proj1 page_failure_handling ask _ _ 2%Z H1 H2 H3) as (pre & Hp & _ & He).
    exists pre. split; [exact Hp|]. exact (He RequestException eq_refl). }
  split; [exact H4|]. split; [exact H5|]. split; [exact H6|].
  exact (proj1 (proj2 page_failure_handling) 5%nat api _ _ _ _ H4 H5 H6).
Defined.

Lemma geocoding_one_row_per_query_witness :
  let cols := ["주소"] in
  let rows := [[PStr "서울 중구 세종대로 110"]; [PNaN]] in
  let ask := fun (_ : nat) (_ : address_type) => GeoJson (Some "OK") (PStr "1") (PStr "2") in
  nth_error rows 1 = Some [PNaN] /\
  nth_error (fst (geocode_rows (xy_out cols) "주소" ask cols 0 rows)) 1
    = Some [PNaN; PNone; PNone].
Proof.
  intros cols rows ask.
  assert (H : nth_error rows 1 = Some [PNaN]) by reflexivity.
  split; [exact H|].
  destruct (geocoding_one_row_per_query "key" cols rows ask) as (_ & _ & Hn & _).
  specialize (Hn 1%nat [PNaN] H). simpl in Hn. exact (proj1 Hn).
Defined.

(** ** Further properties of the scripts *)

Lemma try_types_result ask ts : forall x y tried,
  try_types ask ts = ((x, y), tried) ->
  (x = PNone /\ y = PNone) \/
  (truthy x = true /\ truthy y = true /\
   exists pre t st, tried = pre ++ [t] /\ ask t = GeoJson st x y /\
     status_is "OK" st = true).
Proof.
  induction ts as [|t rest IH]; intros x y tried H; simpl in H.
  - injection H as <- <- _. auto.
  - destruct (ask t) as [e|st x0 y0] eqn:Ha; cbn [geo_attempt] in H.
    + injection H as <- <- _. auto.
    + destruct (status_is "OK" st) eqn:Hok.
      * destruct (truthy x0 && truthy y0) eqn:Hxy.
        -- injection H as <- <- <-. apply andb_true_iff in Hxy as [Hx Hy].
           right. split; [exact Hx|]. split; [exact Hy|].
           exists [], t, st. auto.
        -- destruct (try_types ask rest) as [[x' y'] tr] eqn:Ht.
           injection H as -> -> <-.
           destruct (IH x y tr eq_refl) as [Hn|(Hx & Hy & pre & t' & st' & -> & Ha' & Hs)];
             [auto|].
           right. split; [exact Hx|]. split; [exact Hy|].
           exists (t :: pre), t', st'. auto.
      * destruct (status_is "NOT_FOUND" st).
        -- destruct (try_types ask rest) as [[x' y'] tr] eqn:Ht.
           injection H as -> -> <-.
           destruct (IH x y tr eq_refl) as [Hn|(Hx & Hy & pre & t' & st' & -> & Ha' & Hs)];
             [auto|].
           right. split; [exact Hx|]. split; [exact Hy|].
           exists (t :: pre), t', st'. auto.
        -- injection H as <- <- _. auto.
Qed.

(** [get_coordinate] never alters the coordinates it receives: its result
    is [(None, None)], or two true values returned verbatim, with an [OK]
    status, by the reply to the last request it issued. *)
Theorem get_coordinate_passthrough ask a x y tried :
  get_coordinate ask a = ((x, y), tried) ->
  (x = PNone /\ y = PNone) \/
  (truthy x = true /\ truthy y = true /\
   exists pre t st, tried = pre ++ [t] /\ ask t = GeoJson st x y /\
     status_is "OK" st = true).
Proof.
  unfold get_coordinate. destruct (skip_address a).
  - intros H. injection H as <- <- _. auto.
  - apply try_types_result.
Qed.




Lemma process_items_counters its : forall acc c acc' c',
  process_items its acc c = (acc', c', false) ->
  count_added c' = (count_added c + count_outcome outcome_added its)%nat /\
  count_filtered_seoul c' = (count_filtered_seoul c + count_outcome outcome_region its)%nat /\
  count_filtered_atm c' = (count_filtered_atm c + count_outcome outcome_atm its)%nat /\
  List.length acc' = (List.length acc + count_outcome outcome_added its)%nat.
Proof.
  unfold count_outcome.
  induction its as [|it rest IH]; intros acc c acc' c' H; simpl in H.
  - injection H as <- <-. simpl. lia.
  - simpl. destruct (process_item it) eqn:Hp; simpl;
      try (apply IH in H; simpl in H; lia).
    + apply IH in H. simpl in H. rewrite length_app in H. simpl in H. lia.
    + discriminate.
Qed.

(** The per-page counters of [search_place] are exact when the item loop
    completes: each counts the items with its outcome, [count_added] is the
    number of entries appended to [all_items], and the three counters add
    up to at most the number of items. *)
Theorem page_counters_exact its acc acc' c :
  process_items its acc counters0 = (acc', c, false) ->
  count_added c = count_outcome outcome_added its /\
  count_filtered_seoul c = count_outcome outcome_region its /\
  count_filtered_atm c = count_outcome outcome_atm its /\
  List.length acc' = (List.length acc + count_added c)%nat /\
  (count_added c + count_filtered_seoul c + count_filtered_atm c <= List.length its)%nat.
Proof.
  intros H. apply process_items_counters in H. simpl in H.
  destruct H as (H1 & H2 & H3 & H4).
  rewrite H1, H2, H3, H4. repeat (split; [reflexivity|]).
  unfold count_outcome. clear.
  induction its as [|it rest IH]; simpl; [lia|].
  destruct (process_item it); simpl; lia.
Qed.

Lemma search_loop_pages ask fuel : forall k T acc req out req',
  (2 <= k)%Z -> search_loop fuel ask k T acc req = Some (out, req') ->
  exists n, req' = req ++ zrange k n /\ (Z.of_nat n <= Z.max 0 (T - k + 1))%Z.
Proof.
  induction fuel as [|fuel IH]; intros k T acc req out req' Hk H; simpl in H;
    [discriminate|].
  destruct (k <=? T)%Z eqn:HkT.
  2:{ injection H as _ <-. exists 0%nat. rewrite app_nil_r. split; [reflexivity|lia]. }
  apply Z.leb_le in HkT.
  assert (Hk1 : (k =? 1)%Z = false) by (apply Z.eqb_neq; lia).
  rewrite Hk1 in H. simpl in H.
  assert (Hrec : forall acc', search_loop fuel ask (k + 1) T acc' (req ++ [k]) = Some (out, req') ->
    exists n, req' = req ++ zrange k n /\ (Z.of_nat n <= Z.max 0 (T - k + 1))%Z).
  { intros acc' Hr. apply IH in Hr; [|lia]. destruct Hr as (n & -> & Hn).
    exists (S n). rewrite zrange_S, <- app_assoc. split; [reflexivity|lia]. }
  destruct (ask k) as [e|st pt rt its].
  - injection H as _ <-. exists 1%nat. unfold zrange. simpl. rewrite Z.add_0_r.
    split; [reflexivity|lia].
  - destruct (negb (status_is "OK" st)).
    { injection H as _ <-. exists 1%nat. unfold zrange. simpl. rewrite Z.add_0_r.
      split; [reflexivity|lia]. }
    destruct its as [its|]; [|exact (Hrec _ H)].
    destruct (process_items its acc counters0) as [[acc' c] [|]].
    + injection H as _ <-. exists 1%nat. unfold zrange. simpl. rewrite Z.add_0_r.
      split; [reflexivity|lia].
    + exact (Hrec _ H).
Qed.

(** Whatever the replies, [search_place] requests the pages [1, 2, ..., n]
    in order, each once, with [1 <= n <= max 1 N], [N] the first page's
    total. *)
Theorem search_place_pages ask out pages :
  search_place ask = Some (out, pages) ->
  exists n, pages = zrange 1 n /\ (1 <= n)%nat /\
    (Z.of_nat n <= Z.max 1 (page_total_of (ask 1%Z)))%Z.
Proof.
  unfold search_place.
  replace (Z.to_nat (page_total_of (ask 1%Z)) + 2)%nat
    with (S (S (Z.to_nat (page_total_of (ask 1%Z))))) by lia.
  remember (S (Z.to_nat (page_total_of (ask 1%Z)))) as f eqn:Hf.
  simpl. intros H.
  assert (Hrec : forall T acc', T = page_total_of (ask 1%Z) ->
     search_loop f ask 2 T acc' [1%Z] = Some (out, pages) ->
     exists n, pages = zrange 1 n /\ (1 <= n)%nat /\
       (Z.of_nat n <= Z.max 1 (page_total_of (ask 1%Z)))%Z).
  { intros T acc' HT Hr. apply search_loop_pages in Hr; [|lia].
    destruct Hr as (n & -> & Hn). exists (S n).
    rewrite zrange_S. simpl. split; [reflexivity|]. split; [lia|]. subst T. lia. }
  assert (Hone : pages = [1%Z] ->
     exists n, pages = zrange 1 n /\ (1 <= n)%nat /\
       (Z.of_nat n <= Z.max 1 (page_total_of (ask 1%Z)))%Z).
  { intros ->. exists 1%nat. split; [reflexivity|]. split; lia. }
  destruct (ask 1%Z) as [e|st pt rt its] eqn:Ha.
  - injection H as _ <-. auto.
  - destruct (negb (status_is "OK" st)); [injection H as _ <-; auto|].
    destruct (match rt with Some n => n | None => 0 end =? 0)%Z;
      [injection H as _ <-; auto|].
    simpl in H.
    assert (HT : match pt with Some n => n | None => 1%Z end = page_total_of (PageJson st pt rt its))
      by (destruct pt; reflexivity).
    destruct its as [its|]; [|exact (Hrec _ _ HT H)].
    destruct (process_items its [] counters0) as [[acc' c] [|]].
    + injection H as _ <-. auto.
    + exact (Hrec _ _ HT H).
Qed.

(** A first page that raises, reports a status other than [OK], or reports
    zero records ends the search after that single request, with no
    result. *)
Theorem search_place_first_page_stop ask :
  (forall st pt rt its, ask 1%Z = PageJson st pt rt its ->
     status_is "OK" st = false \/ record_total_of (ask 1%Z) = 0%Z) ->
  search_place ask = Some ([], [1%Z]).
Proof.
  intros Hstop. unfold search_place.
  replace (Z.to_nat (page_total_of (ask 1%Z)) + 2)%nat
    with (S (S (Z.to_nat (page_total_of (ask 1%Z))))) by lia.
  remember (S (Z.to_nat (page_total_of (ask 1%Z)))) as f eqn:Hf.
  simpl. destruct (ask 1%Z) as [e|st pt rt its] eqn:Ha; [reflexivity|].
  destruct (Hstop st pt rt its eq_refl) as [Hs|Hr].
  - rewrite Hs. reflexivity.
  - destruct (negb (status_is "OK" st)); [reflexivity|].
    simpl in Hr. destruct rt as [n|]; [subst n|]; reflexivity.
Qed.

Lemma bank_loop_key k ask qs : forall acc,
  bank_loop (Some k) ask qs acc =
  (acc ++ flat_map (fun q => bank_rows q (fst (search_result (ask q)))) qs,
   flat_map (fun q => map (Request (String.append "search/" q))
                         (snd (search_result (ask q)))) qs).
Proof.
  induction qs as [|q rest IH]; intros acc; simpl; [rewrite app_nil_r; reflexivity|].
  unfold search_result at 1 3.
  destruct (search_place (ask q)) as [[locations pages]|] eqn:Hs.
  - rewrite IH. simpl. rewrite app_assoc. reflexivity.
  - exfalso. exact (search_place_total _ Hs).
Qed.

(** With a readable key, [main] of geocoding_bank.py searches all six banks
    in [bank_list] order, issues exactly the requests of those searches,
    and writes the rows [(bank, title, x, y)] of all banks, bank by bank. *)
Theorem main_bank_all_banks k ask :
  main_bank (Some k) ask =
  flat_map (fun q => map (Request (String.append "search/" q))
                        (snd (search_result (ask q)))) bank_list ++
  write_if_nonempty "bank_location.csv" ["bank"; "title"; "longitude"; "latitude"]
    (flat_map (fun q => bank_rows q (fst (search_result (ask q)))) bank_list).
Proof. unfold main_bank. rewrite bank_loop_key. reflexivity. Qed.

(** [fetch_all_kiosk_data] requests the row ranges starting at 1, 1001,
    2001, ... consecutively, stops at the first range that does not carry
    rows, and returns the rows of all earlier ranges, concatenated in
    order. *)
Theorem fetch_all_ranges fuel ask rows starts :
  fetch_all_kiosk_data fuel ask = Some (rows, starts) ->
  exists n, starts = map range_start (seq 0 (S n)) /\
    rows = List.concat (map (fun j => api_rows (ask (range_start j))) (seq 0 n)) /\
    (forall j, (j < n)%nat -> api_continues (ask (range_start j)) = true) /\
    api_continues (ask (range_start n)) = false.
Proof.
  unfold fetch_all_kiosk_data. intros H.
  change 1%Z with (range_start 0) in H.
  apply fetch_loop_shape in H as (n & -> & -> & Hc & Hl).
  exists n. split; [reflexivity|]. split; [reflexivity|].
  split; [intros j Hj; apply Hc; lia|exact Hl].
Qed.

Lemma required_columns_nodup : NoDup required_columns.
Proof. unfold required_columns. repeat constructor; simpl; intuition discriminate. Qed.

(** The CSV written by [main] of public_api.py: written as the only event
    after the requests, to seoul_kiosk_list.csv, with exactly the required
    columns present in the data (no duplicates), one row per harvested row,
    and one cell per selected column in each row. *)
Theorem public_api_csv k fuel ask rows starts evs f h t :
  fetch_all_kiosk_data fuel ask = Some (rows, starts) ->
  main_public_api (Some k) fuel ask = Some evs ->
  In (WriteCsv f h t) evs ->
  evs = map (Request "TbKioskInfo") starts ++ [WriteCsv f h t] /\
  f = "seoul_kiosk_list.csv" /\
  (forall c, In c h <-> In c required_columns /\ df_has_column rows c = true) /\
  NoDup h /\
  List.length t = List.length rows /\
  Forall (fun r => List.length r = List.length h) t.
Proof.
  intros Hf Hm Hin. unfold main_public_api in Hm. rewrite Hf in Hm.
  assert (Hnr : forall e, In e (map (Request "TbKioskInfo") starts) -> is_write e = false).
  { intros e He. apply in_map_iff in He as (z & <- & _). reflexivity. }
  destruct rows as [|r0 rs].
  { injection Hm as <-. apply in_app_or in Hin as [Hin|[Hin|[]]];
      [specialize (Hnr _ Hin); discriminate|discriminate]. }
  destruct (filter (df_has_column (r0 :: rs)) required_columns) as [|c0 cs] eqn:Hav.
  { injection Hm as <-. apply in_app_or in Hin as [Hin|[Hin|[]]];
      [specialize (Hnr _ Hin); discriminate|discriminate]. }
  set (tbl := map (project (c0 :: cs)) (r0 :: rs)) in Hm.
  injection Hm as <-. apply in_app_or in Hin as [Hin|[Hin|[]]];
    [specialize (Hnr _ Hin); discriminate|].
  injection Hin as <- <- <-.
  split; [reflexivity|]. split; [reflexivity|]. split; [|split; [|split]].
  - intros c. rewrite <- Hav. apply filter_In.
  - rewrite <- Hav. apply NoDup_filter, required_columns_nodup.
  - apply length_map.
  - apply Forall_forall. intros r Hr. apply in_map_iff in Hr as (x & <- & _).
    unfold project. apply length_map.
Qed.

Lemma nowrite_final pre f h t :
  forallb (fun e => negb (is_write e)) pre = true ->
  single_final_write (pre ++ write_if_nonempty f h t).
Proof.
  intros Hpre. destruct t as [|r rs]; simpl.
  - exists pre, (Report NothingToWrite). split; [reflexivity|]. split; [exact Hpre|].
    intros ? ? ? Hc; discriminate.
  - exists pre, (WriteCsv f h (r :: rs)). split; [reflexivity|]. split; [exact Hpre|].
    intros ? ? ? Hc. injection Hc as _ _ <-. discriminate.
Qed.

Lemma geocode_rows_nowrite mk_out col ask cols rows : forall i,
  forallb (fun e => negb (is_write e)) (snd (geocode_rows mk_out col ask cols i rows)) = true.
Proof.
  induction rows as [|r rest IH]; intros i; simpl; [reflexivity|].
  destruct (get_coordinate (ask i) (row_get cols r col)) as [[x y] tr].
  specialize (IH (S i)).
  destruct (geocode_rows mk_out col ask cols (S i) rest) as [out evs]. simpl in *.
  rewrite forallb_app, IH, andb_true_r. unfold geo_requests.
  apply forallb_forall. intros e He. apply in_map_iff in He as (a & <- & _). reflexivity.
Qed.

Lemma bank_loop_nowrite key ask qs : forall acc,
  forallb (fun e => negb (is_write e)) (snd (bank_loop key ask qs acc)) = true.
Proof.
  induction qs as [|q rest IH]; intros acc; simpl; [reflexivity|].
  destruct key as [k|]; [|reflexivity].
  destruct (search_place (ask q)) as [[locations pages]|]; [|reflexivity].
  specialize (IH (acc ++ map (fun '(t, x, y) => [PStr q; PStr t; x; y]) locations)).
  destruct (bank_loop (Some k) ask rest _) as [acc'' evs]. simpl in *.
  rewrite forallb_app, IH, andb_true_r.
  apply forallb_forall. intros e He. apply in_map_iff in He as (z & <- & _). reflexivity.
Qed.

Lemma single_final_one e :
  is_write e = false -> single_final_write [e].
Proof.
  intros He. exists [], e. split; [reflexivity|]. split; [reflexivity|].
  intros ? ? ? ->. discriminate.
Qed.

(** No [main] writes a file before its last event, none writes more than
    one file, and none writes an empty table. *)
Theorem mains_single_final_write key input ask_geo ask_bank fuel ask_api :
  single_final_write (main_xy key input ask_geo) /\
  single_final_write (main_geocoding_public key input ask_geo) /\
  single_final_write (main_bank key ask_bank) /\
  forall evs, main_public_api key fuel ask_api = Some evs -> single_final_write evs.
Proof.
  split; [|split; [|split]].
  - unfold main_xy. destruct key as [k|]; [|apply single_final_one; reflexivity].
    destruct input as [[cols rows]|]; [|apply single_final_one; reflexivity].
    pose proof (geocode_rows_nowrite (xy_out cols) "주소" ask_geo cols rows 0) as Hn.
    destruct (geocode_rows (xy_out cols) "주소" ask_geo cols 0 rows) as [out evs].
    apply nowrite_final. exact Hn.
  - unfold main_geocoding_public. destruct key as [k|]; [|apply single_final_one; reflexivity].
    destruct input as [[cols rows]|]; [|apply single_final_one; reflexivity].
    pose proof (geocode_rows_nowrite (public_out cols) "ESBPLCADDR" ask_geo cols rows 0) as Hn.
    destruct (geocode_rows (public_out cols) "ESBPLCADDR" ask_geo cols 0 rows) as [out evs].
    apply nowrite_final. exact Hn.
  - unfold main_bank.
    pose proof (bank_loop_nowrite key ask_bank bank_list []) as Hn.
    destruct (bank_loop key ask_bank bank_list []) as [acc evs]. simpl in Hn.
    rewrite app_assoc. apply nowrite_final. rewrite forallb_app, Hn, andb_true_r.
    destruct key; reflexivity.
  - intros evs Hm. unfold main_public_api in Hm.
    destruct key as [k|]; [|injection Hm as <-; apply single_final_one; reflexivity].
    destruct (fetch_all_kiosk_data fuel ask_api) as [[rows starts]|]; [|discriminate].
    assert (Hnr : forallb (fun e => negb (is_write e)) (map (Request "TbKioskInfo") starts) = true).
    { apply forallb_forall. intros e He. apply in_map_iff in He as (z & <- & _). reflexivity. }
    destruct rows as [|r0 rs].
    { injection Hm as <-. eexists _, _. split; [reflexivity|]. split; [exact Hnr|].
      intros ? ? ? Hc. discriminate. }
    destruct (filter (df_has_column (r0 :: rs)) required_columns) as [|c0 cs].
    { injection Hm as <-. eexists _, _. split; [reflexivity|]. split; [exact Hnr|].
      intros ? ? ? Hc. discriminate. }
    injection Hm as <-. eexists _, _. split; [reflexivity|]. split; [exact Hnr|].
    intros ? ? ? Hc. injection Hc as _ _ <-. discriminate.
Qed.







Lemma prefixb_upper p : forall s,
  prefixb p s = true -> prefixb (upper p) (upper s) = true.
Proof.
  induction p as [|a p IH]; intros s H; [reflexivity|].
  destruct s as [|b s]; [discriminate|]. simpl in *.
  apply andb_true_iff in H as [Hab Hp]. apply Ascii.eqb_eq in Hab. subst b.
  rewrite Ascii.eqb_refl. simpl. exact (IH s Hp).
Qed.

Lemma contains_upper s w :
  contains s w = true -> contains (upper s) (upper w) = true.
Proof.
  induction s as [|c s IH]; intros H; simpl in *.
  - rewrite orb_false_r in *. destruct w; [reflexivity|discriminate].
  - apply orb_true_iff in H as [H|H].
    + apply orb_true_iff. left. exact (prefixb_upper w (String c s) H).
    + apply orb_true_iff. right. exact (IH H).
Qed.

(** The exclusion filter is case-insensitive: a title containing any
    ASCII case variant of "ATM" (such as "atm" or "aTm") is excluded. *)
Theorem title_exclusion_any_case it t w :
  title_value it = Some t -> upper w = exclusion_keyword -> contains t w = true ->
  process_item it = Excluded_ATM.
Proof.
  intros Ht Hw Hc. unfold process_item. rewrite Ht, <- Hw, (contains_upper _ _ Hc).
  reflexivity.
Qed.

Lemma get_coordinate_passthrough_witness :
  let ask := fun t => match t with
    | ROAD => GeoJson (Some "NOT_FOUND") PNone PNone
    | PARCEL => GeoJson (Some "OK") (PStr "127.0") (PStr "37.5")
    end in
  get_coordinate ask (PStr "서울 중구") = ((PStr "127.0", PStr "37.5"), [ROAD; PARCEL]) /\
  exists pre t st, [ROAD; PARCEL] = pre ++ [t] /\
    ask t = GeoJson st (PStr "127.0") (PStr "37.5") /\ status_is "OK" st = true.
Proof.
  intros ask.
  assert (H : get_coordinate ask (PStr "서울 중구") =
              ((PStr "127.0", PStr "37.5"), [ROAD; PARCEL])) by reflexivity.
  split; [exact H|].
  destruct (get_coordinate_passthrough ask _ _ _ _ H) as [[Hx _]|(_ & _ & Hr)];
    [discriminate|exact Hr].
Defined.

Lemma page_counters_exact_witness :
  let its := [bank_item "우리은행 ATM" "서울 중구"; bank_item "우리은행 본점" "서울 중구";
              bank_item "우리은행 수원점" "경기 수원시"] in
  process_items its [] counters0 =
    ([("우리은행 본점", PStr "127.0", PStr "37.5")], mk_counters 1 1 1, false) /\
  count_added (mk_counters 1 1 1) = count_outcome outcome_added its /\
  count_filtered_seoul (mk_counters 1 1 1) = count_outcome outcome_region its /\
  count_filtered_atm (mk_counters 1 1 1) = count_outcome outcome_atm its.
Proof.
  intros its.
  assert (H : process_items its [] counters0 =
    ([("우리은행 본점", PStr "127.0", PStr "37.5")], mk_counters 1 1 1, false))
    by (vm_compute; reflexivity).
  split; [exact H|].
  destruct (page_counters_exact its [] _ _ H) as (H1 & H2 & H3 & _). auto.
Defined.

Lemma search_place_pages_witness :
  let ask := fun p : Z => if (p =? 2)%Z then PageRaised RequestException
             else PageJson (Some "OK") (Some 3%Z) (Some 50%Z)
                    (Some [bank_item "우리은행 종로점" "서울 종로구"]) in
  search_place ask =
    Some ([("우리은행 종로점", PStr "127.0", PStr "37.5")], [1%Z; 2%Z]) /\
  exists n, [1%Z; 2%Z] = zrange 1 n /\ (1 <= n)%nat /\
    (Z.of_nat n <= Z.max 1 (page_total_of (ask 1%Z)))%Z.
Proof.
  intros ask.
  assert (H : search_place ask =
    Some ([("우리은행 종로점", PStr "127.0", PStr "37.5")], [1%Z; 2%Z]))
    by (vm_compute; reflexivity).
  split; [exact H|]. exact (search_place_pages ask _ _ H).
Defined.

Lemma search_place_first_page_stop_witness :
  let ask := fun _ : Z => PageJson (Some "NOT_FOUND") None None None in
  (forall st pt rt its, ask 1%Z = PageJson st pt rt its ->
     status_is "OK" st = false \/ record_total_of (ask 1%Z) = 0%Z) /\
  search_place ask = Some ([], [1%Z]).
Proof.
  intros ask.
  assert (H : forall st pt rt its, ask 1%Z = PageJson st pt rt its ->
     status_is "OK" st = false \/ record_total_of (ask 1%Z) = 0%Z).
  { intros st pt rt its He. injection He as <- _ _ _. left. reflexivity. }
  split; [exact H|]. exact (search_place_first_page_stop ask H).
Defined.

Lemma fetch_all_ranges_witness :
  let ask := fun s : Z => if (s =? 1)%Z then ApiService [kiosk_row]
             else if (s =? 1001)%Z then ApiService [kiosk_row; kiosk_row]
             else ApiNoService (Some "INFO-200") in
  fetch_all_kiosk_data 5 ask =
    Some ([kiosk_row; kiosk_row; kiosk_row], [1%Z; 1001%Z; 2001%Z]) /\
  exists n, [1%Z; 1001%Z; 2001%Z] = map range_start (seq 0 (S n)) /\
    [kiosk_row; kiosk_row; kiosk_row] =
      List.concat (map (fun j => api_rows (ask (range_start j))) (seq 0 n)) /\
    api_continues (ask (range_start n)) = false.
Proof.
  intros ask.
  assert (H : fetch_all_kiosk_data 5 ask =
    Some ([kiosk_row; kiosk_row; kiosk_row], [1%Z; 1001%Z; 2001%Z]))
    by (vm_compute; reflexivity).
  split; [exact H|].
  destruct (fetch_all_ranges 5 ask _ _ H) as (n & H1 & H2 & _ & H4).
  exists n. auto.
Defined.

Lemma public_api_csv_witness :
  let ask := fun s : Z => if (s =? 1)%Z then ApiService [kiosk_row] else ApiService [] in
  let evs := [Request "TbKioskInfo" 1; Request "TbKioskInfo" 1001;
              WriteCsv "seoul_kiosk_list.csv" ["MGTNO"; "ESBPLCADDR"]
                [[PStr "1"; PStr "서울 중구"]]] in
  fetch_all_kiosk_data 3 ask = Some ([kiosk_row], [1%Z; 1001%Z]) /\
  main_public_api (Some "key") 3 ask = Some evs /\
  In (WriteCsv "seoul_kiosk_list.csv" ["MGTNO"; "ESBPLCADDR"] [[PStr "1"; PStr "서울 중구"]]) evs /\
  NoDup ["MGTNO"; "ESBPLCADDR"] /\
  (forall c, In c ["MGTNO"; "ESBPLCADDR"] <->
     In c required_columns /\ df_has_column [kiosk_row] c = true).
Proof.
  intros ask evs.
  assert (H1 : fetch_all_kiosk_data 3 ask = Some ([kiosk_row], [1%Z; 1001%Z]))
    by (vm_compute; reflexivity).
  assert (H2 : main_public_api (Some "key") 3 ask = Some evs) by (vm_compute; reflexivity).
  assert (H3 : In (WriteCsv "seoul_kiosk_list.csv" ["MGTNO"; "ESBPLCADDR"]
                  [[PStr "1"; PStr "서울 중구"]]) evs) by (simpl; auto).
  destruct (public_api_csv "key" 3 ask _ _ _ _ _ _ H1 H2 H3) as (_ & _ & Hc & Hn & _).
  auto.
Defined.

Lemma mains_single_final_write_witness :
  let ask := fun s : Z => if (s =? 1)%Z then ApiService [kiosk_row] else ApiService [] in
  main_public_api (Some "key") 3 ask =
    Some [Request "TbKioskInfo" 1; Request "TbKioskInfo" 1001;
          WriteCsv "seoul_kiosk_list.csv" ["MGTNO"; "ESBPLCADDR"]
            [[PStr "1"; PStr "서울 중구"]]] /\
  single_final_write
    [Request "TbKioskInfo" 1; Request "TbKioskInfo" 1001;
     WriteCsv "seoul_kiosk_list.csv" ["MGTNO"; "ESBPLCADDR"] [[PStr "1"; PStr "서울 중구"]]] /\
  single_final_write (main_bank (Some "key") (fun _ _ => PageRaised OtherException)).
Proof.
  intros ask.
  assert (H : main_public_api (Some "key") 3 ask =
    Some [Request "TbKioskInfo" 1; Request "TbKioskInfo" 1001;
          WriteCsv "seoul_kiosk_list.csv" ["MGTNO"; "ESBPLCADDR"]
            [[PStr "1"; PStr "서울 중구"]]]) by (vm_compute; reflexivity).
  destruct (mains_single_final_write (Some "key") None (fun _ _ => GeoRaised RequestException)
              (fun _ _ => PageRaised OtherException) 3 ask) as (_ & _ & Hb & Ha).
  split; [exact H|]. split; [exact (Ha _ H)|exact Hb].
Defined.



Lemma title_exclusion_any_case_witness :
  let it := bank_item "우리은행 aTm 코너" "서울 중구" in
  title_value it = Some "우리은행 aTm 코너" /\ upper "aTm" = exclusion_keyword /\
  contains "우리은행 aTm 코너" "aTm" = true /\ process_item it = Excluded_ATM.
Proof.
  intros it.
  assert (H1 : title_value it = Some "우리은행 aTm 코너") by reflexivity.
  assert (H2 : upper "aTm" = exclusion_keyword) by (vm_compute; reflexivity).
  assert (H3 : contains "우리은행 aTm 코너" "aTm" = true) by (vm_compute; reflexivity).
  split; [exact H1|]. split; [exact H2|]. split; [exact H3|].
  exact (title_exclusion_any_case it _ _ H1 H2 H3).
Defined.


